(** * pypibt: the metrics engine of [app.py] and the solution validator

    A shallow embedding of [calculate_metrics] (src/app.py, lines 19-49)
    and of the validator that [main] calls on the planner's output.

    Python values are modelled as follows.
    - A position is a pair of integers, a configuration is the list of the
      agents' positions, a plan is the list of configurations.
    - [plan] may be [None] (the planner's failure signal), hence
      [option Plan].
    - A subscript [l[i]] out of range raises [IndexError]; a true division
      by zero raises [ZeroDivisionError].  Exceptions are threaded through
      a small error monad, [result].
    - The returned [dict] is a finite map from its string keys to values.
    - A float is a binary64 number, [spec_float] of the Standard Library's
      specification of IEEE 754.  [int / int] is Python's true division:
      the double nearest to the exact quotient, ties to even.  Where the
      quotient is beyond the range of a double Python raises
      [OverflowError]; for the division of line 46 that takes a plan of
      2^1023 configurations or more, while a list holds fewer than 2^63
      items, and [true_div] yields the IEEE result there. *)

From Stdlib Require Import SpecFloat DecimalString DecimalPos DecimalZ.
From stdpp Require Import base option numbers list strings gmap fin_maps.

Open Scope Z_scope.

(** ** Python values and exceptions *)

Definition Position : Type := Z * Z.
Abbreviation Configuration := (list Position).
Abbreviation Plan := (list Configuration).

Inductive value : Type :=
  | VBool (b : bool)
  | VInt (n : Z)
  | VFloat (f : spec_float).

Inductive exn : Type :=
  | IndexError
  | ZeroDivisionError.

Inductive result (A : Type) : Type :=
  | Ok (a : A)
  | Raise (e : exn).
Arguments Ok {A} a.
Arguments Raise {A} e.

#[global] Instance result_ret : MRet result := fun A a => Ok a.
#[global] Instance result_bind : MBind result := fun A B f m =>
  match m with
  | Ok a => f a
  | Raise e => Raise e
  end.

(** [l[i]] for [i] in [range(...)], so never negative. *)
Definition subscript {A : Type} (l : list A) (i : nat) : result A :=
  match l !! i with
  | Some x => Ok x
  | None => Raise IndexError
  end.

(** [for x in xs: acc = body(acc, x)], stopping at the first exception. *)
Fixpoint for_in {A B : Type} (xs : list A) (acc : B)
    (body : B -> A -> result B) : result B :=
  match xs with
  | [] => Ok acc
  | x :: xs' => acc' ← body acc x; for_in xs' acc' body
  end.

(** [range(n)] *)
Definition range (n : nat) : list nat := seq 0 n.

(** The double nearest to [a / b], for [b] other than zero: the quotient
    of the magnitudes to 53 significant bits with what is left over, then
    rounded to nearest, ties to even, as IEEE 754 division does.  A zero
    quotient takes the sign of the divisor, [0 / -3] being [-0.0]. *)
Definition binary64_quotient (a b : Z) : spec_float :=
  let negative := xorb (a <? 0) (b <? 0) in
  match a with
  | 0 => S754_zero negative
  | _ =>
      let '(q, e, l) := SFdiv_core_binary 53 1024 (Z.abs a) 0 (Z.abs b) 0 in
      binary_round_aux 53 1024 negative q e l
  end.

(** [a / b] on two ints. *)
Definition true_div (a b : Z) : result value :=
  if decide (b = 0) then Raise ZeroDivisionError
  else Ok (VFloat (binary64_quotient a b)).

(** ** [calculate_metrics] *)

(** Lines 31-34: the inner loop over the timesteps for one agent. *)
Definition agent_path_length (plan : Plan) (agent_id : nat)
    (goal_position : Position) : result Z :=
  for_in (range (length plan)) 0 (fun agent_path_length timestep =>
    configuration ← subscript plan timestep;
    position ← subscript configuration agent_id;
    mret (if bool_decide (position ≠ goal_position)
          then Z.of_nat timestep + 1
          else agent_path_length)).

(** Lines 28-35: the outer loop over the agents. *)
Definition sum_of_costs (plan : Plan) (goals : list Position)
    (number_of_agents : nat) : result Z :=
  for_in (range number_of_agents) 0 (fun sum_of_costs agent_id =>
    goal_position ← subscript goals agent_id;
    agent_path_length ← agent_path_length plan agent_id goal_position;
    mret (sum_of_costs + agent_path_length)).

(** Line 39: [all(final_positions[i] == goals[i] for i in ...)].  The
    generator is consumed lazily: [all] stops at the first [False]. *)
Fixpoint all_reached (final_positions goals : list Position)
    (agents : list nat) : result bool :=
  match agents with
  | [] => Ok true
  | i :: agents' =>
      position ← subscript final_positions i;
      goal ← subscript goals i;
      if bool_decide (position = goal)
      then all_reached final_positions goals agents'
      else Ok false
  end.

(** Line 22: the record of a failed run. *)
Definition failed_metrics (computation_time : value) : gmap string value :=
  <["success" := VBool false]>
  (<["computation_time" := computation_time]> ∅).

(** Lines 41-49: the record of a run with a plan. *)
Definition metrics_record (number_of_agents : nat) (success : bool)
    (makespan sum_of_costs : Z) (average_path_length : value)
    (total_timesteps : nat) (computation_time : value) : gmap string value :=
  <["number_of_agents" := VInt (Z.of_nat number_of_agents)]>
  (<["success" := VBool success]>
  (<["makespan" := VInt makespan]>
  (<["sum_of_costs" := VInt sum_of_costs]>
  (<["average_path_length" := average_path_length]>
  (<["total_timesteps" := VInt (Z.of_nat total_timesteps)]>
  (<["computation_time" := computation_time]> ∅)))))).

Definition calculate_metrics (plan : option Plan) (starts goals : list Position)
    (computation_time : value) : result (gmap string value) :=
  match plan with
  | None | Some [] => Ok (failed_metrics computation_time)
  | Some plan =>
      let number_of_agents := length starts in
      let makespan := Z.of_nat (length plan) - 1 in
      sum_of_costs ← sum_of_costs plan goals number_of_agents;
      final_positions ← subscript plan (length plan - 1);
      all_reached_goals ←
        all_reached final_positions goals (range number_of_agents);
      average_path_length ←
        true_div sum_of_costs (Z.of_nat number_of_agents);
      mret (metrics_record number_of_agents all_reached_goals makespan
              sum_of_costs average_path_length (length plan)
              computation_time)
  end.

(** ** Notions the properties of [calculate_metrics] are stated with *)

(** The position of agent [i] at timestep [t], when the plan has one. *)
Definition position_at (plan : Plan) (t i : nat) : option Position :=
  c ← plan !! t; c !! i.

(** [L] is one more than the last timestep at which agent [i] is away from
    [g], or zero when it is never away from [g]. *)
Definition last_departure (plan : Plan) (i : nat) (g : Position) (L : Z)
    : Prop :=
  (L = 0 ∧ ∀ t p, position_at plan t i = Some p → p = g) ∨
  (∃ t p, L = Z.of_nat t + 1 ∧ position_at plan t i = Some p ∧ p ≠ g ∧
     ∀ t' p', (t < t')%nat → position_at plan t' i = Some p' → p' = g).

(** What the inner loop has established after its first [k] iterations:
    [last_departure] on the timesteps below [k]. *)
Definition departure_upto (plan : Plan) (agent_id : nat)
    (goal_position : Position) (k : nat) (L : Z) : Prop :=
  (L = 0 ∧
   ∀ t p, (t < k)%nat → position_at plan t agent_id = Some p →
          p = goal_position) ∨
  (∃ t p, L = Z.of_nat t + 1 ∧ (t < k)%nat ∧
     position_at plan t agent_id = Some p ∧ p ≠ goal_position ∧
     ∀ t' p', (t < t' < k)%nat → position_at plan t' agent_id = Some p' →
              p' = goal_position).

(** The inputs on which no subscript of [calculate_metrics] is out of
    range: a goal for every agent and, in every configuration, a position
    for every agent. *)
Definition well_formed (plan : Plan) (starts goals : list Position) : Prop :=
  (length starts ≤ length goals)%nat ∧
  Forall (fun c : Configuration => (length starts ≤ length c)%nat) plan.

(** Every agent among the first [n] is on its goal in configuration [c]. *)
Definition all_on_goal (c : Configuration) (goals : list Position) (n : nat)
    : Prop :=
  ∀ i, (i < n)%nat → ∃ p, c !! i = Some p ∧ goals !! i = Some p.

(** The sum of a list of integers. *)
Definition Zsum (l : list Z) : Z := foldr Z.add 0 l.

(** [lens] lists, agent by agent, what the inner loop computes for the
    first [n] agents. *)
Definition per_agent_lengths (plan : Plan) (goals : list Position) (n : nat)
    (lens : list Z) : Prop :=
  length lens = n ∧
  ∀ i, (i < n)%nat →
    ∃ g L, goals !! i = Some g ∧ lens !! i = Some L ∧
           agent_path_length plan i g = Ok L.

(** [lens] lists, agent by agent, the path lengths of the first [n] agents:
    for each of them one more than the last timestep off its goal, or zero. *)
Definition last_departures (plan : Plan) (goals : list Position) (n : nat)
    (lens : list Z) : Prop :=
  length lens = n ∧
  ∀ i, (i < n)%nat →
    ∃ g L, goals !! i = Some g ∧ lens !! i = Some L ∧
           last_departure plan i g L.

(** ** The arguments as objects of Python's store

    The lists that [calculate_metrics] receives are mutable objects, which
    its caller keeps using: [main] passes the same [solution_plan] to
    [save_configs_for_visualizer] afterwards (line 171).  Here the function
    is embedded once more, on references into a store of list objects and
    with every read of the source written out, so that what it does to its
    arguments can be stated.  [plan] refers to a list of references to the
    configurations; [starts], [goals] and each configuration are lists of
    positions (tuples, which are immutable values).  Two references may be
    the same object. *)

Inductive list_object : Type :=
  | PositionList (items : list Position)
  | ReferenceList (items : list positive).

Abbreviation store := (gmap positive list_object).

(** A computation on the store returns or raises, and leaves a store.  It
    is undefined ([None]) where a reference is not a list of the kind the
    operation takes, which no call on lists of positions leads to. *)
Definition stateful (A : Type) : Type :=
  store -> option (result A * store).

#[global] Instance stateful_ret : MRet stateful := fun A a h =>
  Some (Ok a, h).
#[global] Instance stateful_bind : MBind stateful := fun A B f m h =>
  match m h with
  | Some (Ok a, h') => f a h'
  | Some (Raise e, h') => Some (Raise e, h')
  | None => None
  end.

(** The outcome of an expression that does not touch the store. *)
Definition pure {A : Type} (r : result A) : stateful A := fun h =>
  Some (r, h).

(** [len(l)] *)
Definition len (l : positive) : stateful nat := fun h =>
  match h !! l with
  | Some (PositionList items) => Some (Ok (length items), h)
  | Some (ReferenceList items) => Some (Ok (length items), h)
  | None => None
  end.

(** [l[i]] on a list of positions and on a list of references. *)
Definition position_item (l : positive) (i : nat) : stateful Position :=
  fun h =>
    match h !! l with
    | Some (PositionList items) => Some (subscript items i, h)
    | _ => None
    end.

Definition reference_item (l : positive) (i : nat) : stateful positive :=
  fun h =>
    match h !! l with
    | Some (ReferenceList items) => Some (subscript items i, h)
    | _ => None
    end.

(** [l[i] = p], the assignment that changes a list in place.  The source
    of [calculate_metrics] has no assignment to an item, no method call
    and no [del]; this operation is here for the store to be one that a
    function could change. *)
Definition set_position_item (l : positive) (i : nat) (p : Position)
    : stateful unit :=
  fun h =>
    match h !! l with
    | Some (PositionList items) =>
        if decide (i < length items)%nat
        then Some (Ok tt, <[l := PositionList (<[i := p]> items)]> h)
        else Some (Raise IndexError, h)
    | _ => None
    end.

(** [for x in xs: acc = body(acc, x)] on the store. *)
Fixpoint for_in_store {A B : Type} (xs : list A) (acc : B)
    (body : B -> A -> stateful B) : stateful B :=
  match xs with
  | [] => mret acc
  | x :: xs' => acc' ← body acc x; for_in_store xs' acc' body
  end.

(** Line 39 on the store. *)
Fixpoint all_reached_store (final_positions goals : positive)
    (agents : list nat) : stateful bool :=
  match agents with
  | [] => mret true
  | i :: agents' =>
      position ← position_item final_positions i;
      goal ← position_item goals i;
      if bool_decide (position = goal)
      then all_reached_store final_positions goals agents'
      else mret false
  end.

(** Line 21: [not plan], for [None] and for a list. *)
Definition not_plan (plan : option positive) : stateful bool :=
  match plan with
  | None => mret true
  | Some plan => n ← len plan; mret (bool_decide (n = 0%nat))
  end.

(** Lines 23-49 on the store, read by read. *)
Definition metrics_store (plan starts goals : positive)
    (computation_time : value) : stateful (gmap string value) :=
  number_of_agents ← len starts;
  timesteps ← len plan;
  let makespan := Z.of_nat timesteps - 1 in
  sum_of_costs ← for_in_store (range number_of_agents) 0
    (fun sum_of_costs agent_id =>
       goal_position ← position_item goals agent_id;
       timesteps ← len plan;
       agent_path_length ← for_in_store (range timesteps) 0
         (fun agent_path_length timestep =>
            configuration ← reference_item plan timestep;
            position ← position_item configuration agent_id;
            mret (if bool_decide (position ≠ goal_position)
                  then Z.of_nat timestep + 1
                  else agent_path_length));
       mret (sum_of_costs + agent_path_length));
  timesteps ← len plan;
  final_positions ← reference_item plan (timesteps - 1);
  all_reached_goals ←
    all_reached_store final_positions goals (range number_of_agents);
  average_path_length ←
    pure (true_div sum_of_costs (Z.of_nat number_of_agents));
  total_timesteps ← len plan;
  mret (metrics_record number_of_agents all_reached_goals makespan
          sum_of_costs average_path_length total_timesteps
          computation_time).

(** Lines 19-49 on the store. *)
Definition calculate_metrics_store (plan : option positive)
    (starts goals : positive) (computation_time : value)
    : stateful (gmap string value) :=
  no_plan ← not_plan plan;
  match plan with
  | Some plan =>
      if (no_plan : bool) then mret (failed_metrics computation_time)
      else metrics_store plan starts goals computation_time
  | None => mret (failed_metrics computation_time)
  end.

(** The lists that the references stand for. *)
Definition positions_of (h : store) (l : positive) : option (list Position) :=
  match h !! l with
  | Some (PositionList items) => Some items
  | _ => None
  end.

Definition plan_of (h : store) (plan : option positive) : option (option Plan) :=
  match plan with
  | None => Some None
  | Some plan =>
      match h !! plan with
      | Some (ReferenceList items) => Some <$> mapM (positions_of h) items
      | _ => None
      end
  end.

(** The computation [m] on the store [h] leaves [h] as it is, and its
    outcome is [r] up to [R]: the same exception, or values in [R]. *)
Definition reads_as {A B} (R : A → B → Prop) (m : stateful A)
    (r : result B) (h : store) : Prop :=
  ∃ r', m h = Some (r', h) ∧
    match r', r with
    | Ok a, Ok b => R a b
    | Raise e, Raise e' => e = e'
    | _, _ => False
    end.

(** ** The solution validator

    [main] (line 156) calls [is_valid_mapf_solution], which it imports from
    the package [pypibt]; the package's modules are not among the sources
    at hand.  The definitions of this section follow the validator's
    design in the specification (section 4.1) instead. *)

(** Modelled from the spec: the grid model, which is external to [app.py].
    The validator needs two queries only, [is_walkable] and [neighbors4]
    (specification, section 6). *)
Record Grid : Type := {
  is_walkable : Position -> bool;
  neighbors4 : Position -> list Position
}.

(** Modelled from the spec: the grid as a fixed matrix of cells, each
    walkable ([true]) or blocked (section 3); a position outside the matrix
    is not walkable, and the neighbours of a cell are the walkable cells
    among the four next to it. *)
Definition cell (cells : list (list bool)) (p : Position) : bool :=
  bool_decide (0 ≤ p.1 ∧ 0 ≤ p.2) &&
  match cells !! Z.to_nat p.1 with
  | Some row => default false (row !! Z.to_nat p.2)
  | None => false
  end.

(** Modelled from the spec: the grid of a matrix of cells, with the two
    queries of section 6. *)
Definition matrix_grid (cells : list (list bool)) : Grid := {|
  is_walkable := cell cells;
  neighbors4 := fun p =>
    filter (fun q => cell cells q)
      [(p.1 - 1, p.2); (p.1 + 1, p.2); (p.1, p.2 - 1); (p.1, p.2 + 1)]
|}.

(** Modelled from the spec: the failure kinds of section 7. *)
Inductive FailureKind : Type :=
  | EMPTY_PLAN
  | START_MISMATCH
  | BLOCKED_CELL
  | ILLEGAL_MOVE
  | VERTEX_COLLISION
  | EDGE_SWAP
  | GOAL_NOT_REACHED.

(** Modelled from the spec: the verdict of section 3, a success flag and,
    on failure, the kind, the offending timestep and the offending agents. *)
Inductive ValidationVerdict : Type :=
  | Valid
  | Invalid (kind : FailureKind) (timestep : nat) (agents : list nat).

(** Modelled from the spec: the offending agents of a check, those among
    [0 .. n-1] that [offends] rejects. *)
Definition offenders (n : nat) (offends : nat -> bool) : list nat :=
  filter (fun i => offends i) (seq 0 n).

(** Modelled from the spec: initial-state and goal-reaching checks; agent
    [i] offends when its position is not the expected one. *)
Definition misplaced (c expected : Configuration) (i : nat) : bool :=
  bool_decide (c !! i ≠ expected !! i).

(** Modelled from the spec: cell validity, the target position must be
    walkable. *)
Definition blocked (grid : Grid) (c' : Configuration) (i : nat) : bool :=
  match c' !! i with
  | Some q => negb (is_walkable grid q)
  | None => true
  end.

(** Modelled from the spec: move legality, the new position is the old one
    (a wait) or one of its four neighbours. *)
Definition illegal (grid : Grid) (c c' : Configuration) (i : nat) : bool :=
  match c !! i, c' !! i with
  | Some p, Some q => negb (bool_decide (q = p ∨ q ∈ neighbors4 grid p))
  | _, _ => true
  end.

(** Modelled from the spec: vertex collision, another agent holds the same
    position in the new configuration. *)
Definition collides (n : nat) (c' : Configuration) (i : nat) : bool :=
  existsb (fun j => bool_decide (j ≠ i ∧ c' !! j = c' !! i)) (seq 0 n).

(** Modelled from the spec: swap collision, another agent's new cell is
    this agent's old cell and the other way round. *)
Definition swaps (n : nat) (c c' : Configuration) (i : nat) : bool :=
  existsb (fun j => bool_decide (j ≠ i ∧ c !! i = c' !! j ∧ c !! j = c' !! i))
    (seq 0 n).

(** Modelled from the spec: fail-fast, the first check that has offenders
    decides. *)
Fixpoint first_failure (checks : list (FailureKind * list nat))
    : option (FailureKind * list nat) :=
  match checks with
  | [] => None
  | (kind, []) :: checks' => first_failure checks'
  | (kind, agents) :: _ => Some (kind, agents)
  end.

(** Modelled from the spec: the four checks of one transition, in the
    order of section 4.1. *)
Definition check_transition (grid : Grid) (n : nat) (c c' : Configuration)
    : option (FailureKind * list nat) :=
  first_failure
    [ (BLOCKED_CELL, offenders n (blocked grid c'));
      (ILLEGAL_MOVE, offenders n (illegal grid c c'));
      (VERTEX_COLLISION, offenders n (collides n c'));
      (EDGE_SWAP, offenders n (swaps n c c')) ].

(** Modelled from the spec: the transitions in order, stopping at the
    first failure; the transition into timestep [t+1] reports [t+1]. *)
Fixpoint check_transitions (grid : Grid) (n t : nat) (c : Configuration)
    (rest : Plan) : option ValidationVerdict :=
  match rest with
  | [] => None
  | c' :: rest' =>
      match check_transition grid n c c' with
      | Some (kind, agents) => Some (Invalid kind (S t) agents)
      | None => check_transitions grid n (S t) c' rest'
      end
  end.

(** Modelled from the spec: [validate] of section 4.1 on inputs that meet
    its contract. *)
Definition verdict (grid : Grid) (starts goals : list Position) (plan : Plan)
    : ValidationVerdict :=
  let n := length starts in
  match plan with
  | [] => Invalid EMPTY_PLAN 0 []
  | c0 :: rest =>
      match offenders n (misplaced c0 starts) with
      | _ :: _ as agents => Invalid START_MISMATCH 0 agents
      | [] =>
          match check_transitions grid n 0 c0 rest with
          | Some failure => failure
          | None =>
              match offenders n (misplaced (default c0 (last plan)) goals) with
              | _ :: _ as agents =>
                  Invalid GOAL_NOT_REACHED (length plan - 1) agents
              | [] => Valid
              end
          end
      end
  end.

(** Modelled from the spec: the contract of section 4.1 (one goal per
    start) and of the data model (one entry per agent in a configuration). *)
Definition contract (starts goals : list Position) (plan : Plan) : Prop :=
  length goals = length starts ∧
  Forall (fun c : Configuration => length c = length starts) plan.

(** Modelled from the spec: the contract can be checked at the boundary. *)
#[global] Instance contract_dec starts goals plan :
  Decision (contract starts goals plan).
Proof. unfold contract. apply _. Defined.

(** Modelled from the spec: [validate]; an input outside the contract is
    refused at the boundary ([None]) instead of being given a verdict. *)
Definition validate (grid : Grid) (starts goals : list Position) (plan : Plan)
    : option ValidationVerdict :=
  if decide (contract starts goals plan)
  then Some (verdict grid starts goals plan)
  else None.

(** Modelled from the spec: the boolean that [main] receives. *)
Definition is_valid_mapf_solution (grid : Grid) (starts goals : list Position)
    (plan : Plan) : option bool :=
  v ← validate grid starts goals plan;
  Some (match v with Valid => true | Invalid _ _ _ => false end).

(** ** Notions the property of the validator is stated with *)

(** Every pair of consecutive configurations of the plan is in [R]. *)
Definition transitions (R : Configuration -> Configuration -> Prop)
    (plan : Plan) : Prop :=
  ∀ t c c', plan !! t = Some c → plan !! S t = Some c' → R c c'.

(** A move from [p] to [q]: a wait, or a step to a walkable neighbour. *)
Definition wait_or_walkable_neighbor (grid : Grid) (p q : Position) : Prop :=
  q = p ∨ (q ∈ neighbors4 grid p ∧ is_walkable grid q = true).

(** A move from [p] to [q] that ends on a walkable cell: a wait on a
    walkable cell, or a step to a walkable neighbour. *)
Definition walkable_wait_or_neighbor (grid : Grid) (p q : Position) : Prop :=
  is_walkable grid q = true ∧ (q = p ∨ q ∈ neighbors4 grid p).

(** No two distinct agents share a cell in [c]. *)
Definition no_shared_cell (c : Configuration) : Prop :=
  ∀ i j p, i ≠ j → c !! i = Some p → c !! j = Some p → False.

(** No two distinct agents swap their cells between [c] and [c']. *)
Definition no_swap (c c' : Configuration) : Prop :=
  ∀ i j p q, i ≠ j →
    c !! i = Some p → c' !! j = Some p →
    c !! j = Some q → c' !! i = Some q → False.

(** The plans of the property: the first configuration is the starts, every
    agent moves by [move] in every transition, no cell is shared, no cells
    are swapped, and the last configuration is the goals. *)
Record conforming (move : Position -> Position -> Prop)
    (starts goals : list Position) (plan : Plan) : Prop := {
  conforming_initial : head plan = Some starts;
  conforming_moves : transitions (Forall2 move) plan;
  conforming_cells : Forall no_shared_cell plan;
  conforming_swaps : transitions no_swap plan;
  conforming_final : last plan = Some goals
}.

(** ** [save_metrics_to_file]

    The report is written through [file.write] calls inside a [with] block
    (lines 52-77).  A file is modelled by the list of the strings written
    to it, in order (its content is their concatenation), the file system by
    a finite map from paths to files.  A missing key raises [KeyError]; the
    block closes the file also when an exception leaves it, so that what was
    written before stays in the file.

    Formatting a metric ([f"{v}"] and the fixed-point [f"{v:.Nf}"]) and the
    division of line 73 are builtins of Python on values that may be
    floats; they are parameters, and each of them may raise (formatting an
    int beyond the range of a double with [.4f] raises [OverflowError], a
    division by zero [ZeroDivisionError]).  The type [E] of what they raise
    is a parameter as well.  That [open] itself may fail is outside the
    model. *)

(** The values of the [configuration] dict that [main] builds (lines
    174-180): strings and ints. *)
Inductive object : Type :=
  | Str (s : string)
  | Int (n : Z).

(** What the report raises: [KeyError], or the exception of a builtin. *)
Inductive report_exn (E : Type) : Type :=
  | KeyError (key : string)
  | Builtin (e : E).
Arguments KeyError {E} key.
Arguments Builtin {E} e.

(** Writing to the open file: the strings written so far are threaded
    through, and kept when an exception is raised. *)
Definition writer (E A : Type) : Type :=
  list string -> (report_exn E + A) * list string.

#[global] Instance writer_ret {E} : MRet (writer E) := fun A a written =>
  (inr a, written).
#[global] Instance writer_bind {E} : MBind (writer E) :=
  fun A B f m written =>
    match m written with
    | (inr a, written') => f a written'
    | (inl e, written') => (inl e, written')
    end.

(** [file.write(s)] *)
Definition write {E : Type} (s : string) : writer E unit := fun written =>
  (inr tt, written ++ [s]).

(** [d[key]] *)
Definition getitem {E V : Type} (d : gmap string V) (key : string)
    : writer E V :=
  fun written =>
    match d !! key with
    | Some v => (inr v, written)
    | None => (inl (KeyError key), written)
    end.

(** The call of a builtin, which returns or raises. *)
Definition builtin {E A : Type} (r : E + A) : writer E A := fun written =>
  match r with
  | inr a => (inr a, written)
  | inl e => (inl (Builtin e), written)
  end.

(** [if v:] a number is true unless it is zero. *)
Definition truthy (v : value) : bool :=
  match v with
  | VBool b => b
  | VInt n => negb (n =? 0)
  | VFloat (S754_zero _) => false
  | VFloat _ => true
  end.

(** The newline character and [s * n]. *)
Definition nl : string := String (Ascii.ascii_of_nat 10) EmptyString.

Fixpoint string_mul (s : string) (n : nat) : string :=
  match n with
  | O => EmptyString
  | S n' => s +:+ string_mul s n'
  end.

(** [str(n)] for an int: decimal digits, with a minus sign when negative. *)
Definition str_int (n : Z) : string := NilZero.string_of_int (Z.to_int n).

(** [f"{o}"] for a string or an int. *)
Definition format_object (o : object) : string :=
  match o with
  | Str s => s
  | Int n => str_int n
  end.

(** Line 67 and line 76: the status line of the report. *)
Definition status_line (success : bool) : string :=
  if success then "  Status:                SUCCESS" +:+ nl
  else "  Status:                FAILED" +:+ nl.

Section Report.
Variable E : Type.
Variable format_value : value -> E + string.
Variable format_fixed : nat -> value -> E + string.
Variable divide : value -> value -> E + value.

(** Lines 55-77: the body of the [with] block. *)
Definition report (metrics : gmap string value)
    (configuration : gmap string object) : writer E unit :=
  write ("PIBT EXECUTION RESULTS" +:+ nl);;
  write (string_mul "=" 70 +:+ nl +:+ nl);;
  write ("CONFIGURATION:" +:+ nl);;
  map_file ← getitem configuration "map_file";
  write ("  Map File:         " +:+ format_object map_file +:+ nl);;
  scenario_file ← getitem configuration "scenario_file";
  write ("  Scenario File:    " +:+ format_object scenario_file +:+ nl);;
  number_of_agents ← getitem configuration "number_of_agents";
  write ("  Number of Agents: " +:+ format_object number_of_agents +:+ nl);;
  random_seed ← getitem configuration "random_seed";
  write ("  Random Seed:      " +:+ format_object random_seed +:+ nl);;
  timestamp ← getitem configuration "timestamp";
  write ("  Execution Time:   " +:+ format_object timestamp +:+ nl +:+ nl);;
  success ← getitem metrics "success";
  if truthy success then
    write ("SOLUTION METRICS:" +:+ nl);;
    write (status_line true);;
    makespan ← getitem metrics "makespan";
    makespan ← builtin (format_value makespan);
    write ("  Makespan:              " +:+ makespan +:+ nl);;
    sum_of_costs ← getitem metrics "sum_of_costs";
    sum_of_costs ← builtin (format_value sum_of_costs);
    write ("  Sum of Costs:          " +:+ sum_of_costs +:+ nl);;
    average_path_length ← getitem metrics "average_path_length";
    average_path_length ← builtin (format_fixed 2 average_path_length);
    write ("  Average Path Length:   " +:+ average_path_length +:+ nl);;
    total_timesteps ← getitem metrics "total_timesteps";
    total_timesteps ← builtin (format_value total_timesteps);
    write ("  Total Timesteps:       " +:+ total_timesteps +:+ nl);;
    computation_time ← getitem metrics "computation_time";
    computation_time ← builtin (format_fixed 4 computation_time);
    write ("  Computation Time:      " +:+ computation_time
           +:+ " seconds" +:+ nl);;
    computation_time ← getitem metrics "computation_time";
    number_of_agents ← getitem metrics "number_of_agents";
    time_per_agent ← builtin (divide computation_time number_of_agents);
    time_per_agent ← builtin (format_fixed 6 time_per_agent);
    write ("  Time per Agent:        " +:+ time_per_agent
           +:+ " seconds" +:+ nl)
  else
    write ("SOLUTION METRICS:" +:+ nl);;
    write (status_line false);;
    computation_time ← getitem metrics "computation_time";
    computation_time ← builtin (format_fixed 4 computation_time);
    write ("  Computation Time:      " +:+ computation_time
           +:+ " seconds" +:+ nl).

(** Lines 52-54: [open(output_path, 'w')] starts the file anew; the file
    holds what the block wrote, whether or not the block raised. *)
Definition save_metrics_to_file (metrics : gmap string value)
    (configuration : gmap string object) (output_path : string)
    (files : gmap string (list string))
    : (report_exn E + unit) * gmap string (list string) :=
  let '(outcome, written) := report metrics configuration [] in
  (outcome, <[output_path := written]> files).
End Report.

(** A writer that never raises [KeyError] and only adds to the file. *)
Definition no_key_error {E A : Type} (m : writer E A) : Prop :=
  ∀ written,
    (∀ key, (m written).1 ≠ inl (KeyError key)) ∧
    written `prefix_of` (m written).2.

(** The configuration has the five keys the report reads. *)
Definition complete (configuration : gmap string object) : Prop :=
  is_Some (configuration !! "map_file") ∧
  is_Some (configuration !! "scenario_file") ∧
  is_Some (configuration !! "number_of_agents") ∧
  is_Some (configuration !! "random_seed") ∧
  is_Some (configuration !! "timestamp").

(** ** [generate_output_name] *)

(** Lines 80-89.  [Path(p).stem] belongs to [pathlib]; it is a parameter. *)
Definition generate_output_name (stem : string -> string)
    (map_file_path scenario_file_path : string)
    (number_of_agents random_seed : Z) : string :=
  let map_name := stem map_file_path in
  let scenario_name := stem scenario_file_path in
  let output_name :=
    map_name +:+ "_" +:+ scenario_name +:+ "_agents"
    +:+ str_int number_of_agents +:+ "_seed" +:+ str_int random_seed in
  output_name.

(** No character of the string is an underscore. *)
Fixpoint no_underscore (s : string) : Prop :=
  match s with
  | EmptyString => True
  | String c s' => c ≠ Ascii.ascii_of_nat 95 ∧ no_underscore s'
  end.

(** The configuration that [main] builds (lines 174-180). *)
Definition main_configuration (map_file scenario_file : string)
    (number_of_agents random_seed : Z) (timestamp : string)
    : gmap string object :=
  <["map_file" := Str map_file]>
  (<["scenario_file" := Str scenario_file]>
  (<["number_of_agents" := Int number_of_agents]>
  (<["random_seed" := Int random_seed]>
  (<["timestamp" := Str timestamp]> ∅)))).

(** ** Sample runs *)

(** A run on two agents: agent 0 reaches its goal at timestep 1 and leaves
    it again at timestep 2; agent 1 waits on its goal throughout. *)
Definition oscillating_plan : Plan :=
  [ [(0, 0); (5, 5)]; [(0, 1); (5, 5)]; [(0, 0); (5, 5)]; [(0, 1); (5, 5)] ].

Definition oscillating_starts : list Position := [(0, 0); (5, 5)].
Definition oscillating_goals : list Position := [(0, 1); (5, 5)].

(** Goals that no agent of the sample run starts on. *)
Definition far_goals : list Position := [(0, 1); (6, 6)].

(** The record of two agents that stand on their goals for two timesteps. *)
Definition still_record : gmap string value :=
  metrics_record 2 true 1 0 (VFloat (binary64_quotient 0 2)) 2
    (VFloat (S754_zero false)).

(** The configuration of a run with the default files, and a stand-in for
    the formatting of metrics. *)
Definition sample_configuration : gmap string object :=
  main_configuration "assets/random-32-32-10.map"
    "assets/random-32-32-10-random-1.scen" 2 0 "2026-01-01 00:00:00".
Definition sample_format_value (v : value) : string + string :=
  inr "?".
Definition sample_format_fixed (digits : nat) (v : value)
    : string + string :=
  match v with
  | VInt n => if 2 ^ 1024 <=? Z.abs n then inl "OverflowError" else inr "?"
  | _ => inr "?"
  end.
Definition sample_divide (a b : value) : string + value :=
  match b with
  | VInt 0 => inl "ZeroDivisionError"
  | _ => inr a
  end.

(** The sample run in the store: the plan is a list of references, in turn,
    to the very list of starts and the very list of goals. *)
Definition oscillating_store : store :=
  <[1%positive := PositionList oscillating_starts]>
  (<[2%positive := PositionList oscillating_goals]>
  (<[3%positive := ReferenceList [1; 2; 1; 2]%positive]> ∅)).

(** A 3x3 open grid. *)
Definition open3 : Grid :=
  matrix_grid [[true; true; true]; [true; true; true]; [true; true; true]].

(** Two agents on the open grid, each taking one step. *)
Definition crossing_starts : list Position := [(0, 0); (0, 2)].
Definition crossing_goals : list Position := [(0, 1); (1, 2)].
Definition crossing_plan : Plan := [crossing_starts; crossing_goals].


(** Python's [1 / 3] is the double [0x1.5555555555555p-2], [3 / 2] is
    [1.5], [0 / -3] is [-0.0], and a tie goes to the even neighbour:
    [(2**53 + 1) / 1] is [2.0**53]. *)
Example one_third :
  binary64_quotient 1 3 = S754_finite false 6004799503160661 (-54).
Proof. vm_compute. reflexivity. Qed.

Example three_halves :
  binary64_quotient 3 2 = S754_finite false 6755399441055744 (-52).
Proof. vm_compute. reflexivity. Qed.

Example negative_zero : binary64_quotient 0 (-3) = S754_zero true.
Proof. vm_compute. reflexivity. Qed.

Example tie_to_even :
  binary64_quotient (2 ^ 53 + 1) 1 = S754_finite false 4503599627370496 1.
Proof. vm_compute. reflexivity. Qed.

Example crossing_is_valid :
  validate open3 crossing_starts crossing_goals crossing_plan = Some Valid.
Proof. vm_compute. reflexivity. Qed.

Example head_on_swap :
  validate open3 [(0, 0); (0, 1)] [(0, 1); (0, 0)]
    [ [(0, 0); (0, 1)]; [(0, 1); (0, 0)] ]
  = Some (Invalid EDGE_SWAP 1 [0; 1]%nat).
Proof. vm_compute. reflexivity. Qed.

Example shared_cell :
  validate open3 [(0, 0); (0, 2)] [(0, 1); (0, 1)]
    [ [(0, 0); (0, 2)]; [(0, 1); (0, 1)] ]
  = Some (Invalid VERTEX_COLLISION 1 [0; 1]%nat).
Proof. vm_compute. reflexivity. Qed.

Example no_plan :
  validate open3 [(0, 0)] [(0, 1)] [] = Some (Invalid EMPTY_PLAN 0 []).
Proof. vm_compute. reflexivity. Qed.

(** ** The error monad and the loops *)

Lemma bind_Ok {A B} (m : result A) (f : A → result B) (b : B) :
  m ≫= f = Ok b ↔ ∃ a, m = Ok a ∧ f a = Ok b.
Proof.
  destruct m as [a|e]; simpl; split.
  - intros H. exists a. auto.
  - intros (a' & Ha & H). congruence.
  - discriminate.
  - intros (a' & Ha & _). discriminate.
Qed.

Lemma bind_Ok_l {A B} (a : A) (f : A → result B) : Ok a ≫= f = f a.
Proof. reflexivity. Qed.

Lemma subscript_Ok {A} (l : list A) (i : nat) (x : A) :
  subscript l i = Ok x ↔ l !! i = Some x.
Proof.
  unfold subscript. destruct (l !! i); split; intros H; congruence.
Qed.

Lemma subscript_lt {A} (l : list A) (i : nat) :
  (i < length l)%nat → ∃ x, subscript l i = Ok x ∧ l !! i = Some x.
Proof.
  intros Hi. destruct (lookup_lt_is_Some_2 l i Hi) as [x Hx].
  exists x. split; [by apply subscript_Ok | done].
Qed.

Lemma for_in_app {A B} (xs ys : list A) (acc : B) body :
  for_in (xs ++ ys) acc body
  = for_in xs acc body ≫= fun acc' => for_in ys acc' body.
Proof.
  revert acc. induction xs as [|x xs IH]; intros acc; simpl; [done|].
  destruct (body acc x) as [acc'|e]; simpl; [apply IH | done].
Qed.

Lemma range_S (n : nat) : range (S n) = range n ++ [n].
Proof. unfold range. by rewrite seq_S. Qed.

(** The rule of a [for] loop over a range: an invariant that holds at the
    start and that every iteration re-establishes without raising holds at
    the end, and the loop does not raise. *)
Lemma for_range_invariant {B} (I : nat → B → Prop) (n : nat) (acc : B) body :
  I 0%nat acc →
  (∀ k a, (k < n)%nat → I k a → ∃ a', body a k = Ok a' ∧ I (S k) a') →
  ∃ r, for_in (range n) acc body = Ok r ∧ I n r.
Proof.
  intros Hinit. induction n as [|n IH]; intros Hstep.
  - exists acc. by split.
  - destruct IH as (r & Hr & HI).
    { intros k a Hk. apply Hstep. lia. }
    destruct (Hstep n r ltac:(lia) HI) as (r' & Hr' & HI').
    exists r'. split; [|done].
    rewrite range_S, for_in_app, Hr. simpl. by rewrite Hr'.
Qed.

(** A loop that does not raise ran every iteration without raising. *)
Lemma for_in_Ok_body {A B} (xs : list A) (acc r : B) body :
  for_in xs acc body = Ok r →
  ∀ x, x ∈ xs → ∃ a a', body a x = Ok a'.
Proof.
  revert acc. induction xs as [|x xs IH]; intros acc Hr y Hy.
  - by apply elem_of_nil in Hy.
  - simpl in Hr. apply bind_Ok in Hr as (acc' & Hx & Hr).
    apply elem_of_cons in Hy as [->|Hy]; [by eauto | by eapply IH].
Qed.

Lemma elem_of_range (n i : nat) : i ∈ range n ↔ (i < n)%nat.
Proof. unfold range. rewrite elem_of_seq. lia. Qed.

(** ** The inner loop: the path length of one agent *)

Lemma position_at_Some (plan : Plan) (t i : nat) (p : Position) :
  position_at plan t i = Some p ↔ ∃ c, plan !! t = Some c ∧ c !! i = Some p.
Proof. unfold position_at. apply bind_Some. Qed.

Lemma position_at_lt (plan : Plan) (t i : nat) (p : Position) :
  position_at plan t i = Some p → (t < length plan)%nat.
Proof.
  intros (c & Hc & _)%position_at_Some. by eapply lookup_lt_Some.
Qed.

Section InnerLoop.
Variables (plan : Plan) (agent_id : nat) (goal_position : Position).
Hypothesis entries :
  Forall (fun c : Configuration => (agent_id < length c)%nat) plan.

Lemma position_at_defined (t : nat) :
  (t < length plan)%nat →
  ∃ c p, plan !! t = Some c ∧ c !! agent_id = Some p.
Proof.
  intros Ht. destruct (lookup_lt_is_Some_2 plan t Ht) as [c Hc].
  pose proof (Forall_lookup_1 _ _ _ _ entries Hc) as Hlen. simpl in Hlen.
  destruct (lookup_lt_is_Some_2 c agent_id Hlen) as [p Hp]. eauto.
Qed.

Lemma departure_upto_step (k : nat) (L : Z) (c : Configuration)
    (p : Position) :
  plan !! k = Some c → c !! agent_id = Some p →
  departure_upto plan agent_id goal_position k L →
  departure_upto plan agent_id goal_position (S k)
    (if bool_decide (p ≠ goal_position) then Z.of_nat k + 1 else L).
Proof.
  intros Hc Hp HL.
  assert (Hk : position_at plan k agent_id = Some p)
    by (apply position_at_Some; eauto).
  case_bool_decide as Hne.
  - right. exists k, p. repeat split; [lia|done|done|]. intros t' p' Ht'. lia.
  - assert (p = goal_position) as Hpg
      by (destruct (decide (p = goal_position)); [done|by destruct Hne]).
    destruct HL as [[-> Hall]|(t & q & -> & Ht & Hq & Hqg & Hafter)].
    + left. split; [done|]. intros t p' Ht Hp'.
      destruct (decide (t = k)) as [->|]; [congruence|].
      apply (Hall t); [lia|done].
    + right. exists t, q. repeat split; [lia|done|done|].
      intros t' p' Ht' Hp'.
      destruct (decide (t' = k)) as [->|]; [congruence|].
      apply (Hafter t'); [lia|done].
Qed.

Lemma departure_upto_all (L : Z) :
  departure_upto plan agent_id goal_position (length plan) L →
  last_departure plan agent_id goal_position L.
Proof.
  intros [[-> Hall]|(t & q & -> & Ht & Hq & Hqg & Hafter)].
  - left. split; [done|]. intros t p Hp.
    apply (Hall t); [by eapply position_at_lt|done].
  - right. exists t, q. repeat split; [done|done|].
    intros t' p' Ht' Hp'. apply (Hafter t'); [|done].
    split; [done|by eapply position_at_lt].
Qed.

Lemma agent_path_length_Ok :
  ∃ L, agent_path_length plan agent_id goal_position = Ok L ∧
       last_departure plan agent_id goal_position L.
Proof.
  unfold agent_path_length.
  match goal with |- context [for_in _ _ ?body] =>
    destruct (for_range_invariant
                (departure_upto plan agent_id goal_position)
                (length plan) 0 body) as (L & HL & HI)
  end; [| |exists L; split; [exact HL|]].
  - left. split; [done|]. intros t p Ht. lia.
  - intros k a Hk Ha.
    destruct (position_at_defined k Hk) as (c & p & Hc & Hp).
    eexists. split.
    + cbn beta. apply bind_Ok. exists c. split; [by apply subscript_Ok|].
      apply bind_Ok. exists p. split; [by apply subscript_Ok|]. reflexivity.
    + by apply departure_upto_step with c.
  - by apply departure_upto_all.
Qed.
End InnerLoop.

(** The last departure bounds every departure. *)
Lemma last_departure_upper (plan : Plan) (i : nat) (g : Position) (L : Z) :
  last_departure plan i g L →
  ∀ t p, position_at plan t i = Some p → p ≠ g → Z.of_nat t + 1 ≤ L.
Proof.
  intros [[-> Hall]|(t0 & q & -> & Hq & Hqg & Hafter)] t p Hp Hpg.
  - by destruct Hpg; eapply Hall.
  - destruct (decide (t0 < t)%nat) as [Hlt|]; [|lia].
    by destruct Hpg; eapply Hafter.
Qed.

Lemma last_departure_range (plan : Plan) (i : nat) (g : Position) (L : Z) :
  last_departure plan i g L → 0 ≤ L ≤ Z.of_nat (length plan).
Proof.
  intros [[-> _]|(t & q & -> & Hq%position_at_lt & _)]; lia.
Qed.

(** ** The outer loop: the sum of costs *)

Lemma Zsum_snoc (l : list Z) (x : Z) : Zsum (l ++ [x]) = Zsum l + x.
Proof. unfold Zsum. induction l as [|y l IH]; simpl; lia. Qed.

Lemma per_agent_lengths_snoc (plan : Plan) (goals : list Position) (k : nat)
    (lens : list Z) (g : Position) (L : Z) :
  per_agent_lengths plan goals k lens →
  goals !! k = Some g → agent_path_length plan k g = Ok L →
  per_agent_lengths plan goals (S k) (lens ++ [L]).
Proof.
  intros [Hlen Hall] Hg HL. split.
  - rewrite length_app. simpl. lia.
  - intros i Hi. destruct (decide (i = k)) as [->|Hne].
    + exists g, L. repeat split; [done| |done].
      rewrite lookup_app_r by lia. by rewrite Hlen, Nat.sub_diag.
    + destruct (Hall i ltac:(lia)) as (g' & L' & Hg' & HL' & Hrun).
      exists g', L'. repeat split; [done| |done].
      rewrite lookup_app_l by lia. done.
Qed.

Lemma well_formed_entries (plan : Plan) (starts goals : list Position)
    (i : nat) :
  well_formed plan starts goals → (i < length starts)%nat →
  Forall (fun c : Configuration => (i < length c)%nat) plan.
Proof.
  intros [_ Hcs] Hi. eapply Forall_impl; [exact Hcs|]. simpl. intros c Hc. lia.
Qed.

Lemma sum_of_costs_Ok (plan : Plan) (starts goals : list Position) :
  well_formed plan starts goals →
  ∃ lens, per_agent_lengths plan goals (length starts) lens ∧
          sum_of_costs plan goals (length starts) = Ok (Zsum lens).
Proof.
  intros Hwf. unfold sum_of_costs.
  match goal with |- context [for_in _ _ ?body] =>
    destruct (for_range_invariant
                (fun k s => ∃ lens, per_agent_lengths plan goals k lens ∧
                                    s = Zsum lens)
                (length starts) 0 body) as (s & Hs & lens & Hlens & ->)
  end.
  - exists []. split; [|done]. split; [done|]. intros i Hi. lia.
  - intros k s Hk (lens & Hlens & ->).
    destruct (subscript_lt goals k) as (g & Hsub & Hg);
      [destruct Hwf; lia|].
    destruct (agent_path_length_Ok plan k g) as (L & HL & _);
      [by eapply well_formed_entries|].
    exists (Zsum lens + L). split.
    + cbn beta. rewrite Hsub. simpl. rewrite HL. reflexivity.
    + exists (lens ++ [L]). split; [by eapply per_agent_lengths_snoc|].
      by rewrite Zsum_snoc.
  - exists lens. by split.
Qed.

(** ** The success flag *)

Lemma all_reached_Ok (final_positions goals : list Position)
    (agents : list nat) :
  (∀ i, i ∈ agents →
        (i < length final_positions)%nat ∧ (i < length goals)%nat) →
  ∃ b, all_reached final_positions goals agents = Ok b ∧
       (b = true ↔
        ∀ i, i ∈ agents →
             ∃ p, final_positions !! i = Some p ∧ goals !! i = Some p).
Proof.
  induction agents as [|i agents IH]; intros Hin.
  - exists true. split; [done|]. split; [|done].
    intros _ i Hi. by apply elem_of_nil in Hi.
  - destruct (Hin i ltac:(left)) as [Hf Hg].
    destruct (subscript_lt final_positions i Hf) as (p & Hp & Hp').
    destruct (subscript_lt goals i Hg) as (g & Hgs & Hg').
    simpl. rewrite Hp. simpl. rewrite Hgs. simpl.
    case_bool_decide as Hpg.
    + destruct IH as (b & Hb & Hiff).
      { intros j Hj. apply Hin. by right. }
      exists b. split; [done|]. rewrite Hiff. split.
      * intros Hall j [->|Hj]%elem_of_cons; [|by apply Hall].
        exists p. split; congruence.
      * intros Hall j Hj. apply Hall. by right.
    + exists false. split; [done|]. split; [done|].
      intros Hall. destruct (Hall i ltac:(left)) as (q & Hq & Hq').
      congruence.
Qed.

(** ** The record of a run with a plan *)

Lemma calculate_metrics_nonempty (plan : Plan) (starts goals : list Position)
    (computation_time : value) :
  plan ≠ [] →
  calculate_metrics (Some plan) starts goals computation_time
  = (s ← sum_of_costs plan goals (length starts);
     final_positions ← subscript plan (length plan - 1);
     b ← all_reached final_positions goals (range (length starts));
     a ← true_div s (Z.of_nat (length starts));
     mret (metrics_record (length starts) b (Z.of_nat (length plan) - 1) s a
             (length plan) computation_time)).
Proof. intros Hne. destruct plan; [done|reflexivity]. Qed.

Lemma last_subscript (plan : Plan) :
  plan ≠ [] →
  ∃ c, last plan = Some c ∧ subscript plan (length plan - 1) = Ok c.
Proof.
  intros Hne. rewrite last_lookup.
  replace (pred (length plan)) with (length plan - 1)%nat by lia.
  destruct (subscript_lt plan (length plan - 1)) as (c & Hc & Hc').
  - destruct plan; [done|simpl; lia].
  - exists c. by split.
Qed.

(** On well-formed inputs with at least one agent the function returns,
    and the record it returns is this one. *)
Lemma calculate_metrics_Ok (plan : Plan) (starts goals : list Position)
    (computation_time : value) :
  plan ≠ [] → well_formed plan starts goals → (1 ≤ length starts)%nat →
  ∃ lens final_positions b,
    per_agent_lengths plan goals (length starts) lens ∧
    last plan = Some final_positions ∧
    (b = true ↔ all_on_goal final_positions goals (length starts)) ∧
    calculate_metrics (Some plan) starts goals computation_time
    = Ok (metrics_record (length starts) b (Z.of_nat (length plan) - 1)
            (Zsum lens)
            (VFloat (binary64_quotient (Zsum lens) (Z.of_nat (length starts))))
            (length plan) computation_time).
Proof.
  intros Hne Hwf Hn.
  destruct (sum_of_costs_Ok plan starts goals Hwf) as (lens & Hlens & Hsum).
  destruct (last_subscript plan Hne) as (c & Hlast & Hsub).
  assert (Hc : (length starts ≤ length c)%nat).
  { destruct Hwf as [_ Hcs]. apply last_Some_elem_of in Hlast.
    by apply (proj1 (Forall_forall _ _) Hcs c). }
  destruct (all_reached_Ok c goals (range (length starts))) as (b & Hb & Hiff).
  { intros i Hi%elem_of_range. destruct Hwf. lia. }
  exists lens, c, b. repeat split; [apply Hlens|apply Hlens|done| | |].
  - rewrite Hiff. intros Hall i Hi. by apply Hall, elem_of_range.
  - rewrite Hiff. intros Hall i Hi%elem_of_range. by apply Hall.
  - rewrite calculate_metrics_nonempty by done.
    rewrite Hsum. simpl. rewrite Hsub. simpl. rewrite Hb. simpl.
    unfold true_div. destruct (decide (Z.of_nat (length starts) = 0)); [lia|].
    reflexivity.
Qed.

Lemma metrics_record_lookups (n : nat) (b : bool) (m s : Z) (a : value)
    (t : nat) (ct : value) :
  let d := metrics_record n b m s a t ct in
  d !! "number_of_agents" = Some (VInt (Z.of_nat n)) ∧
  d !! "success" = Some (VBool b) ∧
  d !! "makespan" = Some (VInt m) ∧
  d !! "sum_of_costs" = Some (VInt s) ∧
  d !! "average_path_length" = Some a ∧
  d !! "total_timesteps" = Some (VInt (Z.of_nat t)) ∧
  d !! "computation_time" = Some ct.
Proof. repeat split; reflexivity. Qed.

Lemma metrics_record_without_time (n : nat) (b : bool) (m s : Z) (a : value)
    (t : nat) (ct ct' : value) :
  delete "computation_time" (metrics_record n b m s a t ct)
  = delete "computation_time" (metrics_record n b m s a t ct').
Proof. vm_compute. reflexivity. Qed.

Lemma calculate_metrics_no_agents (c : Configuration) (rest : Plan)
    (goals : list Position) (computation_time : value) :
  calculate_metrics (Some (c :: rest)) [] goals computation_time
  = Raise ZeroDivisionError.
Proof.
  rewrite calculate_metrics_nonempty by done.
  destruct (last_subscript (c :: rest)) as (final & _ & Hsub); [done|].
  assert (Hsum : sum_of_costs (c :: rest) goals (length (@nil Position))
                 = Ok 0) by reflexivity.
  rewrite Hsum, bind_Ok_l, Hsub, bind_Ok_l. reflexivity.
Qed.

(** ** The inputs on which a record is returned *)

Lemma agent_path_length_Ok_entries (plan : Plan) (i : nat) (g : Position)
    (L : Z) :
  agent_path_length plan i g = Ok L →
  Forall (fun c : Configuration => (i < length c)%nat) plan.
Proof.
  unfold agent_path_length. intros Hrun.
  apply Forall_lookup. intros t c Hc.
  destruct (for_in_Ok_body _ _ _ _ Hrun t) as (a & a' & Hbody).
  { apply elem_of_range. by eapply lookup_lt_Some. }
  cbn beta in Hbody.
  apply bind_Ok in Hbody as (c' & Hc'%subscript_Ok & Hbody).
  apply bind_Ok in Hbody as (p & Hp%subscript_Ok & _).
  assert (c' = c) as -> by congruence.
  by eapply lookup_lt_Some.
Qed.

Lemma sum_of_costs_Ok_entries (plan : Plan) (goals : list Position)
    (n : nat) (s : Z) :
  sum_of_costs plan goals n = Ok s →
  ∀ i, (i < n)%nat →
    (i < length goals)%nat ∧
    Forall (fun c : Configuration => (i < length c)%nat) plan.
Proof.
  unfold sum_of_costs. intros Hrun i Hi.
  destruct (for_in_Ok_body _ _ _ _ Hrun i) as (a & a' & Hbody);
    [by apply elem_of_range|].
  cbn beta in Hbody.
  apply bind_Ok in Hbody as (g & Hg%subscript_Ok & Hbody).
  apply bind_Ok in Hbody as (L & HL & _).
  split; [by eapply lookup_lt_Some|by eapply agent_path_length_Ok_entries].
Qed.

(** A call on a non-empty plan that returns a record was made on
    well-formed inputs with at least one agent. *)
Lemma calculate_metrics_domain (plan : Plan) (starts goals : list Position)
    (computation_time : value) (d : gmap string value) :
  plan ≠ [] →
  calculate_metrics (Some plan) starts goals computation_time = Ok d →
  well_formed plan starts goals ∧ (1 ≤ length starts)%nat.
Proof.
  intros Hne Hrun. rewrite calculate_metrics_nonempty in Hrun by done.
  apply bind_Ok in Hrun as (s & Hsum & Hrun).
  apply bind_Ok in Hrun as (final & _ & Hrun).
  apply bind_Ok in Hrun as (b & _ & Hrun).
  apply bind_Ok in Hrun as (a & Hdiv & _).
  assert (Hn : (1 ≤ length starts)%nat).
  { unfold true_div in Hdiv.
    destruct (decide (Z.of_nat (length starts) = 0)); [discriminate|lia]. }
  destruct (sum_of_costs_Ok_entries _ _ _ _ Hsum (length starts - 1)%nat)
    as [Hgoals Hentries]; [lia|].
  split; [|done]. split; [lia|].
  eapply Forall_impl; [exact Hentries|]. simpl. intros c Hc. lia.
Qed.

(** The record of a call on a non-empty plan that returns one. *)
Lemma calculate_metrics_returns (plan : Plan) (starts goals : list Position)
    (computation_time : value) (d : gmap string value) :
  plan ≠ [] →
  calculate_metrics (Some plan) starts goals computation_time = Ok d →
  well_formed plan starts goals ∧ (1 ≤ length starts)%nat ∧
  ∃ lens final_positions b,
    per_agent_lengths plan goals (length starts) lens ∧
    last plan = Some final_positions ∧
    (b = true ↔ all_on_goal final_positions goals (length starts)) ∧
    d = metrics_record (length starts) b (Z.of_nat (length plan) - 1)
          (Zsum lens)
          (VFloat (binary64_quotient (Zsum lens) (Z.of_nat (length starts))))
          (length plan) computation_time.
Proof.
  intros Hne Hrun.
  destruct (calculate_metrics_domain _ _ _ _ _ Hne Hrun) as [Hwf Hn].
  split; [done|]. split; [done|].
  destruct (calculate_metrics_Ok plan starts goals computation_time Hne Hwf Hn)
    as (lens & final & b & Hlens & Hlast & Hiff & Hrun').
  exists lens, final, b. split_and!; [done|done|done|congruence].
Qed.

(** On a non-empty plan a record is returned exactly on well-formed inputs
    with at least one agent. *)
Lemma calculate_metrics_total (plan : Plan) (starts goals : list Position)
    (computation_time : value) :
  plan ≠ [] →
  (∃ d, calculate_metrics (Some plan) starts goals computation_time = Ok d) ↔
  well_formed plan starts goals ∧ (1 ≤ length starts)%nat.
Proof.
  intros Hne. split.
  - intros [d Hrun]. by eapply calculate_metrics_domain.
  - intros [Hwf Hn].
    destruct (calculate_metrics_Ok plan starts goals computation_time
                Hne Hwf Hn) as (lens & final & b & _ & _ & _ & Hrun).
    eauto.
Qed.

(** ** Path lengths inside the record *)

Lemma per_agent_lengths_last_departure (plan : Plan)
    (starts goals : list Position) (lens : list Z) :
  well_formed plan starts goals →
  per_agent_lengths plan goals (length starts) lens →
  ∀ i L, lens !! i = Some L →
    (i < length starts)%nat ∧
    ∃ g, goals !! i = Some g ∧ last_departure plan i g L.
Proof.
  intros Hwf [Hlen Hall] i L HL.
  assert (Hi : (i < length starts)%nat)
    by (rewrite <- Hlen; by eapply lookup_lt_Some).
  split; [done|].
  destruct (Hall i Hi) as (g & L' & Hg & HL' & Hrun).
  assert (L' = L) as -> by congruence.
  destruct (agent_path_length_Ok plan i g) as (L2 & Hrun2 & Hlast);
    [by eapply well_formed_entries|].
  exists g. split; [done|]. congruence.
Qed.

Lemma Zsum_constant (lens : list Z) (m : Z) :
  Forall (fun L => L = m) lens → Zsum lens = Z.of_nat (length lens) * m.
Proof.
  unfold Zsum. induction 1 as [|L lens -> _ IH]; simpl; [done|].
  rewrite IH. lia.
Qed.

Lemma Zsum_bounded (lens : list Z) (m : Z) :
  Forall (fun L => L ≤ m) lens → Zsum lens ≤ Z.of_nat (length lens) * m.
Proof.
  unfold Zsum. induction 1 as [|L lens HL _ IH]; simpl; [done|]. lia.
Qed.

(** An agent that ends on its goal departed for the last time before the
    last timestep. *)
Lemma last_departure_before_arrival (plan : Plan) (i : nat) (g : Position)
    (L : Z) (final_positions : Configuration) :
  last plan = Some final_positions → final_positions !! i = Some g →
  last_departure plan i g L → L ≤ Z.of_nat (length plan) - 1.
Proof.
  intros Hlast Hfinal Hdep.
  assert (Hlen : (0 < length plan)%nat).
  { destruct plan; [done|simpl; lia]. }
  assert (Hend : position_at plan (length plan - 1) i = Some g).
  { apply position_at_Some. exists final_positions. split; [|done].
    rewrite last_lookup in Hlast.
    by replace (length plan - 1)%nat with (pred (length plan)) by lia. }
  destruct Hdep as [[-> _]|(t & p & -> & Hp & Hpg & _)]; [lia|].
  pose proof (position_at_lt _ _ _ _ Hp) as Ht.
  destruct (decide (t = length plan - 1)%nat) as [->|]; [congruence|lia].
Qed.

(** ** The sample inputs are in the domain *)

Lemma oscillating_nonempty : oscillating_plan ≠ [].
Proof. discriminate. Qed.

Lemma oscillating_entries :
  Forall (fun c : Configuration => (0 < length c)%nat) oscillating_plan.
Proof. repeat constructor. Qed.

Lemma starts_away_from_far_goals (i : nat) :
  (i < length oscillating_starts)%nat →
  oscillating_starts !! i ≠ far_goals !! i.
Proof. destruct i as [|[|i]]; simpl; [discriminate|discriminate|lia]. Qed.

(** ** The properties of the metrics engine *)

(** C1. On a plan in which every configuration has an entry for agent [i]
    (empty or not), the inner loop of [calculate_metrics] returns, for the
    goal [g], one more than the largest timestep at which the agent's
    position differs from [g], and zero when the position is [g] at every
    timestep.  In particular a departure at any timestep [t], also one that
    follows an arrival, makes the length at least [t + 1]. *)
Theorem agent_path_length_last_departure (plan : Plan) (i : nat)
    (g : Position) :
  Forall (fun c : Configuration => (i < length c)%nat) plan →
  ∃ L, agent_path_length plan i g = Ok L ∧
       last_departure plan i g L ∧
       ∀ t p, position_at plan t i = Some p → p ≠ g → Z.of_nat t + 1 ≤ L.
Proof.
  intros Hentries.
  destruct (agent_path_length_Ok plan i g Hentries) as (L & HL & Hlast).
  exists L. split_and!; [done|done|].
  by apply last_departure_upper.
Qed.

Lemma agent_path_length_last_departure_witness :
  Forall (fun c : Configuration => (0 < length c)%nat) oscillating_plan ∧
  ∃ L, agent_path_length oscillating_plan 0 (0, 1) = Ok L ∧
       last_departure oscillating_plan 0 (0, 1) L ∧
       ∀ t p, position_at oscillating_plan t 0 = Some p → p ≠ (0, 1) →
              Z.of_nat t + 1 ≤ L.
Proof.
  split; [exact oscillating_entries|].
  exact (agent_path_length_last_departure oscillating_plan 0 (0, 1)
           oscillating_entries).
Defined.

(** C2. When the plan is [None] or empty, [calculate_metrics] returns the
    record that holds [success = False] and the caller's
    [computation_time], and no other key. *)
Theorem calculate_metrics_without_plan (starts goals : list Position)
    (computation_time : value) :
  let absent := calculate_metrics None starts goals computation_time in
  let empty := calculate_metrics (Some []) starts goals computation_time in
  absent = Ok (failed_metrics computation_time) ∧
  empty = Ok (failed_metrics computation_time) ∧
  failed_metrics computation_time !! "success" = Some (VBool false) ∧
  failed_metrics computation_time !! "computation_time"
    = Some computation_time ∧
  dom (failed_metrics computation_time)
    = ({["success"; "computation_time"]} : gset string) ∧
  failed_metrics computation_time !! "makespan" = None ∧
  failed_metrics computation_time !! "sum_of_costs" = None ∧
  failed_metrics computation_time !! "average_path_length" = None ∧
  failed_metrics computation_time !! "number_of_agents" = None ∧
  failed_metrics computation_time !! "total_timesteps" = None.
Proof.
  repeat split; reflexivity.
Qed.

(** C3. On a non-empty plan [calculate_metrics] returns a record exactly
    when the inputs are well formed and there is an agent, and the record
    it returns has [success = True] exactly when every agent's position in
    the last configuration is its goal. *)
Theorem calculate_metrics_success (plan : Plan) (starts goals : list Position)
    (computation_time : value) :
  plan ≠ [] →
  ((∃ d, calculate_metrics (Some plan) starts goals computation_time = Ok d) ↔
   well_formed plan starts goals ∧ (1 ≤ length starts)%nat) ∧
  ∀ d, calculate_metrics (Some plan) starts goals computation_time = Ok d →
    ∃ final_positions b,
      last plan = Some final_positions ∧
      d !! "success" = Some (VBool b) ∧
      (b = true ↔ all_on_goal final_positions goals (length starts)).
Proof.
  intros Hne. split; [by apply calculate_metrics_total|].
  intros d Hrun.
  destruct (calculate_metrics_returns _ _ _ _ _ Hne Hrun)
    as (_ & _ & lens & final & b & _ & Hlast & Hiff & ->).
  exists final, b. split_and!; [done|reflexivity|exact Hiff].
Qed.

Lemma calculate_metrics_success_witness :
  oscillating_plan ≠ [] ∧
  ((∃ d, calculate_metrics (Some oscillating_plan) oscillating_starts
           oscillating_goals (VFloat (S754_zero false)) = Ok d) ↔
   well_formed oscillating_plan oscillating_starts oscillating_goals ∧
   (1 ≤ length oscillating_starts)%nat) ∧
  ∀ d, calculate_metrics (Some oscillating_plan) oscillating_starts
         oscillating_goals (VFloat (S754_zero false)) = Ok d →
    ∃ final_positions b,
      last oscillating_plan = Some final_positions ∧
      d !! "success" = Some (VBool b) ∧
      (b = true ↔
       all_on_goal final_positions oscillating_goals
         (length oscillating_starts)).
Proof.
  split; [exact oscillating_nonempty|].
  exact (calculate_metrics_success oscillating_plan oscillating_starts
           oscillating_goals (VFloat (S754_zero false)) oscillating_nonempty).
Defined.

(** C4. On a non-empty plan [calculate_metrics] returns a record exactly
    when the inputs are well formed and there is an agent, and the record
    it returns has [makespan = len(plan) - 1] and
    [total_timesteps = len(plan)]. *)
Theorem calculate_metrics_makespan (plan : Plan) (starts goals : list Position)
    (computation_time : value) :
  plan ≠ [] →
  ((∃ d, calculate_metrics (Some plan) starts goals computation_time = Ok d) ↔
   well_formed plan starts goals ∧ (1 ≤ length starts)%nat) ∧
  ∀ d, calculate_metrics (Some plan) starts goals computation_time = Ok d →
    d !! "makespan" = Some (VInt (Z.of_nat (length plan) - 1)) ∧
    d !! "total_timesteps" = Some (VInt (Z.of_nat (length plan))).
Proof.
  intros Hne. split; [by apply calculate_metrics_total|].
  intros d Hrun.
  destruct (calculate_metrics_returns _ _ _ _ _ Hne Hrun)
    as (_ & _ & lens & final & b & _ & _ & _ & ->).
  split; reflexivity.
Qed.

Lemma calculate_metrics_makespan_witness :
  oscillating_plan ≠ [] ∧
  ((∃ d, calculate_metrics (Some oscillating_plan) oscillating_starts
           oscillating_goals (VFloat (S754_zero false)) = Ok d) ↔
   well_formed oscillating_plan oscillating_starts oscillating_goals ∧
   (1 ≤ length oscillating_starts)%nat) ∧
  ∀ d, calculate_metrics (Some oscillating_plan) oscillating_starts
         oscillating_goals (VFloat (S754_zero false)) = Ok d →
    d !! "makespan" = Some (VInt (Z.of_nat (length oscillating_plan) - 1)) ∧
    d !! "total_timesteps" = Some (VInt (Z.of_nat (length oscillating_plan))).
Proof.
  split; [exact oscillating_nonempty|].
  exact (calculate_metrics_makespan oscillating_plan oscillating_starts
           oscillating_goals (VFloat (S754_zero false)) oscillating_nonempty).
Defined.

(** C5. On a non-empty plan [calculate_metrics] returns a record exactly
    when the inputs are well formed and there is an agent, and the record
    it returns has as [sum_of_costs] the sum of the agents' path lengths,
    each of them one more than the agent's last timestep off its goal (or
    zero), and as [average_path_length] the quotient of that sum by the
    number of agents, which is the float that Python's [/] gives for the
    two: the double nearest to the exact quotient. *)
Theorem calculate_metrics_sum_of_costs (plan : Plan)
    (starts goals : list Position) (computation_time : value) :
  plan ≠ [] →
  ((∃ d, calculate_metrics (Some plan) starts goals computation_time = Ok d) ↔
   well_formed plan starts goals ∧ (1 ≤ length starts)%nat) ∧
  ∀ d, calculate_metrics (Some plan) starts goals computation_time = Ok d →
    ∃ lens,
      last_departures plan goals (length starts) lens ∧
      per_agent_lengths plan goals (length starts) lens ∧
      d !! "number_of_agents" = Some (VInt (Z.of_nat (length starts))) ∧
      d !! "sum_of_costs" = Some (VInt (Zsum lens)) ∧
      d !! "average_path_length"
        = Some (VFloat (binary64_quotient (Zsum lens)
                          (Z.of_nat (length starts)))).
Proof.
  intros Hne. split; [by apply calculate_metrics_total|].
  intros d Hrun.
  destruct (calculate_metrics_returns _ _ _ _ _ Hne Hrun)
    as (Hwf & _ & lens & final & b & Hlens & _ & _ & ->).
  exists lens.
  split_and!; [|exact Hlens|reflexivity|reflexivity|reflexivity].
  split; [apply Hlens|]. intros i Hi.
  destruct (proj2 Hlens i Hi) as (g & L & Hg & HL & _).
  destruct (per_agent_lengths_last_departure _ _ _ _ Hwf Hlens i L HL)
    as (_ & g' & Hg' & Hdep).
  exists g, L. split_and!; [done|done|congruence].
Qed.

Lemma calculate_metrics_sum_of_costs_witness :
  oscillating_plan ≠ [] ∧
  ((∃ d, calculate_metrics (Some oscillating_plan) oscillating_starts
           oscillating_goals (VFloat (S754_zero false)) = Ok d) ↔
   well_formed oscillating_plan oscillating_starts oscillating_goals ∧
   (1 ≤ length oscillating_starts)%nat) ∧
  ∀ d, calculate_metrics (Some oscillating_plan) oscillating_starts
         oscillating_goals (VFloat (S754_zero false)) = Ok d →
    ∃ lens,
      last_departures oscillating_plan oscillating_goals
        (length oscillating_starts) lens ∧
      per_agent_lengths oscillating_plan oscillating_goals
        (length oscillating_starts) lens ∧
      d !! "number_of_agents"
        = Some (VInt (Z.of_nat (length oscillating_starts))) ∧
      d !! "sum_of_costs" = Some (VInt (Zsum lens)) ∧
      d !! "average_path_length"
        = Some (VFloat (binary64_quotient (Zsum lens)
                          (Z.of_nat (length oscillating_starts)))).
Proof.
  split; [exact oscillating_nonempty|].
  exact (calculate_metrics_sum_of_costs oscillating_plan oscillating_starts
           oscillating_goals (VFloat (S754_zero false)) oscillating_nonempty).
Defined.

(** C6. On a plan of one configuration in which no agent is on its goal,
    [calculate_metrics] returns a record exactly when the inputs are well
    formed and there is an agent, and the record it returns has
    [success = False], [makespan = 0] and [sum_of_costs] equal to the
    number of agents. *)
Theorem calculate_metrics_single_configuration (c : Configuration)
    (starts goals : list Position) (computation_time : value) :
  (∀ i, (i < length starts)%nat → c !! i ≠ goals !! i) →
  ((∃ d, calculate_metrics (Some [c]) starts goals computation_time = Ok d) ↔
   well_formed [c] starts goals ∧ (1 ≤ length starts)%nat) ∧
  ∀ d, calculate_metrics (Some [c]) starts goals computation_time = Ok d →
    d !! "success" = Some (VBool false) ∧
    d !! "makespan" = Some (VInt 0) ∧
    d !! "number_of_agents" = Some (VInt (Z.of_nat (length starts))) ∧
    d !! "sum_of_costs" = Some (VInt (Z.of_nat (length starts))).
Proof.
  intros Haway. split; [by apply calculate_metrics_total|].
  intros d Hrun.
  destruct (calculate_metrics_returns [c] _ _ _ _ ltac:(done) Hrun)
    as (Hwf & Hn & lens & final & b & Hlens & Hlast & Hiff & ->).
  assert (final = c) as -> by (simpl in Hlast; congruence).
  assert (b = false) as ->.
  { destruct b; [|done].
    destruct (proj1 Hiff eq_refl 0%nat Hn) as (p & Hp & Hg).
    destruct (Haway 0%nat Hn). congruence. }
  assert (Hones : Forall (fun L => L = 1) lens).
  { apply Forall_lookup. intros i L HL.
    destruct (per_agent_lengths_last_departure _ _ _ _ Hwf Hlens i L HL)
      as (Hi & g & Hg & Hdep).
    destruct Hdep as [[-> Hall]|(t & p & -> & Hp%position_at_lt & _)].
    - destruct (lookup_lt_is_Some_2 c i) as [p Hp].
      { destruct Hwf as [_ Hcs]. apply Forall_cons in Hcs as [Hc _]. lia. }
      destruct (Haway i Hi). rewrite Hp, Hg. f_equal.
      apply (Hall 0%nat). apply position_at_Some. by exists c.
    - simpl in Hp. lia. }
  apply Zsum_constant in Hones. destruct Hlens as [Hlen _].
  rewrite Hlen, Z.mul_1_r in Hones.
  split_and!; [reflexivity|reflexivity|reflexivity|].
  rewrite <- Hones. reflexivity.
Qed.

Lemma calculate_metrics_single_configuration_witness :
  (∀ i, (i < length oscillating_starts)%nat →
        oscillating_starts !! i ≠ far_goals !! i) ∧
  ((∃ d, calculate_metrics (Some [oscillating_starts]) oscillating_starts
           far_goals (VFloat (S754_zero false)) = Ok d) ↔
   well_formed [oscillating_starts] oscillating_starts far_goals ∧
   (1 ≤ length oscillating_starts)%nat) ∧
  ∀ d, calculate_metrics (Some [oscillating_starts]) oscillating_starts
         far_goals (VFloat (S754_zero false)) = Ok d →
    d !! "success" = Some (VBool false) ∧
    d !! "makespan" = Some (VInt 0) ∧
    d !! "number_of_agents"
      = Some (VInt (Z.of_nat (length oscillating_starts))) ∧
    d !! "sum_of_costs" = Some (VInt (Z.of_nat (length oscillating_starts))).
Proof.
  split; [exact starts_away_from_far_goals|].
  exact (calculate_metrics_single_configuration oscillating_starts
           oscillating_starts far_goals (VFloat (S754_zero false))
           starts_away_from_far_goals).
Defined.

(** The caller's [computation_time] reaches nothing but the key of that
    name: two calls on the same plan, starts and goals raise the same
    exception, or return records that hold each call's own
    [computation_time] and are equal on every other key. *)
Lemma calculate_metrics_time (plan : option Plan)
    (starts goals : list Position) (time1 time2 : value) :
  match calculate_metrics plan starts goals time1,
        calculate_metrics plan starts goals time2 with
  | Ok d1, Ok d2 =>
      d1 !! "computation_time" = Some time1 ∧
      d2 !! "computation_time" = Some time2 ∧
      delete "computation_time" d1 = delete "computation_time" d2
  | Raise e1, Raise e2 => e1 = e2
  | _, _ => False
  end.
Proof.
  destruct plan as [[|c rest]|].
  - simpl. split_and!; [reflexivity|reflexivity|vm_compute; reflexivity].
  - rewrite !calculate_metrics_nonempty by done.
    destruct (sum_of_costs _ _ _) as [s|e]; [|reflexivity].
    rewrite !bind_Ok_l.
    destruct (subscript _ _) as [final|e]; [|reflexivity].
    rewrite !bind_Ok_l.
    destruct (all_reached _ _ _) as [b|e]; [|reflexivity].
    rewrite !bind_Ok_l.
    destruct (true_div _ _) as [a|e]; [|reflexivity].
    rewrite !bind_Ok_l.
    split_and!; [reflexivity|reflexivity|].
    apply metrics_record_without_time.
  - simpl. split_and!; [reflexivity|reflexivity|vm_compute; reflexivity].
Qed.

(** C9. With a non-empty plan and no agent the division of line 46 raises
    [ZeroDivisionError], so that no record is returned; a call that returns
    a record had no plan, an empty plan, or at least one agent. *)
Theorem calculate_metrics_zero_agents :
  (∀ (c : Configuration) (rest : Plan) (goals : list Position)
     (computation_time : value),
     calculate_metrics (Some (c :: rest)) [] goals computation_time
     = Raise ZeroDivisionError) ∧
  (∀ (plan : option Plan) (starts goals : list Position)
     (computation_time : value) (d : gmap string value),
     calculate_metrics plan starts goals computation_time = Ok d →
     plan = None ∨ plan = Some [] ∨ (1 ≤ length starts)%nat).
Proof.
  split; [exact calculate_metrics_no_agents|].
  intros [[|c rest]|] starts goals computation_time d Hrun; [by auto| |by auto].
  destruct starts as [|s starts].
  - rewrite calculate_metrics_no_agents in Hrun. discriminate.
  - right. right. simpl. lia.
Qed.

(** C10. On a non-empty plan [calculate_metrics] returns a record exactly
    when the inputs are well formed and there is an agent; when the record
    it returns has [success = True], every agent's path length is at most
    the makespan [len(plan) - 1], and [sum_of_costs] is at most the number
    of agents times the makespan. *)
Theorem calculate_metrics_success_bounds (plan : Plan)
    (starts goals : list Position) (computation_time : value) :
  plan ≠ [] →
  ((∃ d, calculate_metrics (Some plan) starts goals computation_time = Ok d) ↔
   well_formed plan starts goals ∧ (1 ≤ length starts)%nat) ∧
  ∀ d, calculate_metrics (Some plan) starts goals computation_time = Ok d →
    d !! "success" = Some (VBool true) →
    ∃ lens,
      per_agent_lengths plan goals (length starts) lens ∧
      d !! "number_of_agents" = Some (VInt (Z.of_nat (length starts))) ∧
      d !! "makespan" = Some (VInt (Z.of_nat (length plan) - 1)) ∧
      d !! "sum_of_costs" = Some (VInt (Zsum lens)) ∧
      Forall (fun L => L ≤ Z.of_nat (length plan) - 1) lens ∧
      Zsum lens ≤ Z.of_nat (length starts) * (Z.of_nat (length plan) - 1).
Proof.
  intros Hne. split; [by apply calculate_metrics_total|].
  intros d Hrun Hsuccess.
  destruct (calculate_metrics_returns _ _ _ _ _ Hne Hrun)
    as (Hwf & Hn & lens & final & b & Hlens & Hlast & Hiff & ->).
  assert (b = true) as Hb.
  { pose proof (metrics_record_lookups (length starts) b
                  (Z.of_nat (length plan) - 1) (Zsum lens)
                  (VFloat (binary64_quotient (Zsum lens) (Z.of_nat (length starts))))
                  (length plan) computation_time) as (_ & Hs & _).
    congruence. }
  apply Hiff in Hb.
  assert (Hall : Forall (fun L => L ≤ Z.of_nat (length plan) - 1) lens).
  { apply Forall_lookup. intros i L HL.
    destruct (per_agent_lengths_last_departure _ _ _ _ Hwf Hlens i L HL)
      as (Hi & g & Hg & Hdep).
    destruct (Hb i Hi) as (p & Hp & Hg').
    assert (p = g) as -> by congruence.
    by eapply last_departure_before_arrival. }
  exists lens.
  split_and!; [exact Hlens|reflexivity|reflexivity|reflexivity|done|].
  apply Zsum_bounded in Hall. destruct Hlens as [Hlen _].
  by rewrite Hlen in Hall.
Qed.

Lemma calculate_metrics_success_bounds_witness :
  oscillating_plan ≠ [] ∧
  ((∃ d, calculate_metrics (Some oscillating_plan) oscillating_starts
           oscillating_goals (VFloat (S754_zero false)) = Ok d) ↔
   well_formed oscillating_plan oscillating_starts oscillating_goals ∧
   (1 ≤ length oscillating_starts)%nat) ∧
  ∀ d, calculate_metrics (Some oscillating_plan) oscillating_starts
         oscillating_goals (VFloat (S754_zero false)) = Ok d →
    d !! "success" = Some (VBool true) →
    ∃ lens,
      per_agent_lengths oscillating_plan oscillating_goals
        (length oscillating_starts) lens ∧
      d !! "number_of_agents"
        = Some (VInt (Z.of_nat (length oscillating_starts))) ∧
      d !! "makespan" = Some (VInt (Z.of_nat (length oscillating_plan) - 1)) ∧
      d !! "sum_of_costs" = Some (VInt (Zsum lens)) ∧
      Forall (fun L => L ≤ Z.of_nat (length oscillating_plan) - 1) lens ∧
      Zsum lens ≤ Z.of_nat (length oscillating_starts)
                  * (Z.of_nat (length oscillating_plan) - 1).
Proof.
  split; [exact oscillating_nonempty|].
  exact (calculate_metrics_success_bounds oscillating_plan oscillating_starts
           oscillating_goals (VFloat (S754_zero false)) oscillating_nonempty).
Defined.

(** ** The checks of the validator *)

Lemma offenders_nil (n : nat) (offends : nat → bool) :
  (∀ i, (i < n)%nat → offends i = false) → offenders n offends = [].
Proof.
  intros Hnone. apply elem_of_nil_inv. intros i Hi.
  unfold offenders in Hi. apply list_elem_of_filter in Hi as [Hoff Hi].
  apply elem_of_seq in Hi. rewrite Hnone in Hoff by lia. done.
Qed.

Lemma transitions_cons (R : Configuration → Configuration → Prop)
    (c c' : Configuration) (rest : Plan) :
  transitions R (c :: c' :: rest) → R c c' ∧ transitions R (c' :: rest).
Proof.
  intros Hall. split.
  - by apply (Hall 0%nat).
  - intros t a b Ha Hb. by apply (Hall (S t)).
Qed.

Lemma transitions_lengths (R : Position → Position → Prop)
    (c : Configuration) (rest : Plan) :
  transitions (Forall2 R) (c :: rest) →
  Forall (fun c' : Configuration => length c' = length c) (c :: rest).
Proof.
  revert c. induction rest as [|c' rest IH]; intros c Hall.
  - by repeat constructor.
  - apply transitions_cons in Hall as [Hstep Hrest].
    apply Forall2_length in Hstep. constructor; [done|].
    eapply Forall_impl; [exact (IH c' Hrest)|]. simpl. intros a Ha. congruence.
Qed.

Section Transition.
Variables (grid : Grid) (n : nat) (c c' : Configuration).
Hypothesis length_c : length c = n.
Hypothesis length_c' : length c' = n.

Lemma blocked_none :
  Forall2 (walkable_wait_or_neighbor grid) c c' →
  offenders n (blocked grid c') = [].
Proof.
  intros Hmoves. apply offenders_nil. intros i Hi. unfold blocked.
  destruct (lookup_lt_is_Some_2 c' i ltac:(lia)) as [q Hq]. rewrite Hq.
  destruct (Forall2_lookup_r _ _ _ _ _ Hmoves Hq) as (p & _ & Hwalk & _).
  by rewrite Hwalk.
Qed.

Lemma illegal_none :
  Forall2 (walkable_wait_or_neighbor grid) c c' →
  offenders n (illegal grid c c') = [].
Proof.
  intros Hmoves. apply offenders_nil. intros i Hi. unfold illegal.
  destruct (lookup_lt_is_Some_2 c' i ltac:(lia)) as [q Hq].
  destruct (Forall2_lookup_r _ _ _ _ _ Hmoves Hq) as (p & Hp & _ & Hmove).
  rewrite Hp, Hq. by rewrite bool_decide_eq_true_2.
Qed.

Lemma collides_none :
  no_shared_cell c' → offenders n (collides n c') = [].
Proof.
  intros Hcells. apply offenders_nil. intros i Hi. unfold collides.
  destruct (existsb _ _) eqn:Hex; [|done].
  apply existsb_exists in Hex as (j & _ & Hj).
  apply bool_decide_eq_true_1 in Hj as [Hne Heq].
  destruct (lookup_lt_is_Some_2 c' i ltac:(lia)) as [q Hq].
  destruct (Hcells j i q Hne); congruence.
Qed.

Lemma swaps_none : no_swap c c' → offenders n (swaps n c c') = [].
Proof.
  intros Hswap. apply offenders_nil. intros i Hi. unfold swaps.
  destruct (existsb _ _) eqn:Hex; [|done].
  apply existsb_exists in Hex as (j & Hin & Hj).
  apply bool_decide_eq_true_1 in Hj as (Hne & Hij & Hji).
  apply in_seq in Hin.
  destruct (lookup_lt_is_Some_2 c i ltac:(lia)) as [p Hp].
  destruct (lookup_lt_is_Some_2 c j ltac:(lia)) as [q Hq].
  destruct (Hswap i j p q); congruence.
Qed.

Lemma check_transition_None :
  Forall2 (walkable_wait_or_neighbor grid) c c' →
  no_shared_cell c' → no_swap c c' →
  check_transition grid n c c' = None.
Proof.
  intros Hmoves Hcells Hswap. unfold check_transition.
  rewrite (blocked_none Hmoves), (illegal_none Hmoves),
    (collides_none Hcells), (swaps_none Hswap).
  reflexivity.
Qed.
End Transition.

Lemma check_transitions_None (grid : Grid) (n t : nat) (c : Configuration)
    (rest : Plan) :
  Forall (fun c' : Configuration => length c' = n) (c :: rest) →
  transitions (Forall2 (walkable_wait_or_neighbor grid)) (c :: rest) →
  Forall no_shared_cell (c :: rest) →
  transitions no_swap (c :: rest) →
  check_transitions grid n t c rest = None.
Proof.
  revert t c. induction rest as [|c' rest IH]; intros t c Hlen Hmoves Hcells Hswaps.
  - reflexivity.
  - apply transitions_cons in Hmoves as [Hmove Hmoves].
    apply transitions_cons in Hswaps as [Hswap Hswaps].
    apply Forall_cons in Hlen as [Hc Hlen].
    apply Forall_cons in Hcells as [_ Hcells].
    simpl. rewrite (check_transition_None grid n c c'); [|done| |done| |done].
    + by apply IH.
    + by apply Forall_cons in Hlen as [? _].
    + by apply Forall_cons in Hcells as [? _].
Qed.

Lemma misplaced_none (c : Configuration) (n : nat) :
  offenders n (misplaced c c) = [].
Proof.
  apply offenders_nil. intros i _. unfold misplaced.
  by apply bool_decide_eq_false_2; intros [].
Qed.

(** A conforming plan meets the contract of the validator. *)
Lemma conforming_contract (move : Position → Position → Prop)
    (starts goals : list Position) (plan : Plan) :
  conforming move starts goals plan → contract starts goals plan.
Proof.
  intros [Hinit Hmoves _ _ Hfinal].
  destruct plan as [|c0 rest]; [done|].
  simpl in Hinit. assert (c0 = starts) as -> by congruence.
  pose proof (transitions_lengths _ _ _ Hmoves) as Hlens.
  split; [|done].
  apply last_Some_elem_of in Hfinal.
  by apply (proj1 (Forall_forall _ _) Hlens goals).
Qed.

(** ** The property of the validator *)

Lemma conforming_verdict (grid : Grid) (starts goals : list Position)
    (plan : Plan) :
  conforming (walkable_wait_or_neighbor grid) starts goals plan →
  verdict grid starts goals plan = Valid.
Proof.
  intros Hplan.
  destruct (conforming_contract _ _ _ _ Hplan) as [_ Hlens].
  destruct Hplan as [Hinit Hmoves Hcells Hswaps Hfinal].
  destruct plan as [|c0 rest]; [done|].
  simpl in Hinit. assert (c0 = starts) as -> by congruence.
  unfold verdict. rewrite misplaced_none.
  rewrite check_transitions_None by done.
  rewrite Hfinal. simpl. by rewrite misplaced_none.
Qed.

(** A plan whose transitions take every agent to a walkable cell that is
    its own or a neighbour passes the validator. *)
Lemma conforming_plan_is_valid (grid : Grid) (starts goals : list Position)
    (plan : Plan) :
  conforming (walkable_wait_or_neighbor grid) starts goals plan →
  validate grid starts goals plan = Some Valid ∧
  is_valid_mapf_solution grid starts goals plan = Some true.
Proof.
  intros Hplan.
  assert (Hvalid : validate grid starts goals plan = Some Valid).
  { unfold validate. rewrite decide_True by by eapply conforming_contract.
    by rewrite conforming_verdict. }
  split; [done|]. unfold is_valid_mapf_solution. by rewrite Hvalid.
Qed.

Lemma transitions_cons_2 (R : Configuration → Configuration → Prop)
    (c c' : Configuration) (rest : Plan) :
  R c c' → transitions R (c' :: rest) → transitions R (c :: c' :: rest).
Proof.
  intros Hstep Hrest [|t] a b Ha Hb; simpl in Ha, Hb.
  - by simplify_eq.
  - by apply (Hrest t).
Qed.

(** Agents on walkable cells that wait or step to a walkable neighbour are
    on walkable cells again. *)
Lemma walkable_step (grid : Grid) (c c' : Configuration) :
  Forall (fun p => is_walkable grid p = true) c →
  Forall2 (wait_or_walkable_neighbor grid) c c' →
  Forall2 (walkable_wait_or_neighbor grid) c c' ∧
  Forall (fun p => is_walkable grid p = true) c'.
Proof.
  intros Hc Hmoves. induction Hmoves as [|p q c c' Hmove _ IH].
  - by split.
  - apply Forall_cons in Hc as [Hp Hc]. destruct (IH Hc) as [Hsteps Hc'].
    assert (Hq : is_walkable grid q = true)
      by (destruct Hmove as [->|[_ Hq]]; done).
    split; constructor; try done. split; [done|].
    destruct Hmove as [->|[Hn _]]; [by left|by right].
Qed.

Lemma walkable_transitions (grid : Grid) (c : Configuration) (rest : Plan) :
  Forall (fun p => is_walkable grid p = true) c →
  transitions (Forall2 (wait_or_walkable_neighbor grid)) (c :: rest) →
  transitions (Forall2 (walkable_wait_or_neighbor grid)) (c :: rest).
Proof.
  revert c. induction rest as [|c' rest IH]; intros c Hc Hmoves.
  - intros [|t] a b Ha Hb; simpl in Ha, Hb; simplify_eq.
  - apply transitions_cons in Hmoves as [Hstep Hmoves].
    destruct (walkable_step grid c c' Hc Hstep) as [Hstep' Hc'].
    apply transitions_cons_2; [done|]. by apply IH.
Qed.

(** C8. A plan whose first configuration is the starts, in which every
    transition takes each agent to its own cell (a wait) or to a walkable
    neighbour, in which no two agents ever share a cell or swap cells, and
    whose last configuration is the goals, is accepted by the validator.
    The starts are positions of a configuration, hence walkable (the
    invariant of the data model). *)
Theorem valid_plan_accepted (grid : Grid) (starts goals : list Position)
    (plan : Plan) :
  Forall (fun p => is_walkable grid p = true) starts →
  conforming (wait_or_walkable_neighbor grid) starts goals plan →
  validate grid starts goals plan = Some Valid ∧
  is_valid_mapf_solution grid starts goals plan = Some true.
Proof.
  intros Hstarts [Hinit Hmoves Hcells Hswaps Hfinal].
  apply conforming_plan_is_valid. split; try done.
  destruct plan as [|c0 rest]; [done|].
  simpl in Hinit. assert (c0 = starts) as -> by congruence.
  by apply walkable_transitions.
Qed.

Lemma crossing_conforming :
  conforming (wait_or_walkable_neighbor open3) crossing_starts crossing_goals
    crossing_plan.
Proof.
  split.
  - reflexivity.
  - intros [|[|t]] c c' Hc Hc'; simpl in Hc, Hc'; simplify_eq.
    repeat constructor; right; (split; [|reflexivity]);
      apply list_elem_of_In; vm_compute; tauto.
  - repeat constructor; intros [|[|i]] [|[|j]] p Hne Hi Hj;
      simpl in Hi, Hj; simplify_eq.
  - intros [|[|t]] c c' Hc Hc'; simpl in Hc, Hc'; simplify_eq.
    intros [|[|i]] [|[|j]] p q Hne Hi Hj' Hj Hi'; simpl in *; simplify_eq.
  - reflexivity.
Qed.

Lemma crossing_starts_walkable :
  Forall (fun p => is_walkable open3 p = true) crossing_starts.
Proof. repeat constructor. Qed.

Lemma valid_plan_accepted_witness :
  Forall (fun p => is_walkable open3 p = true) crossing_starts ∧
  conforming (wait_or_walkable_neighbor open3) crossing_starts crossing_goals
    crossing_plan ∧
  validate open3 crossing_starts crossing_goals crossing_plan = Some Valid ∧
  is_valid_mapf_solution open3 crossing_starts crossing_goals crossing_plan
  = Some true.
Proof.
  split; [exact crossing_starts_walkable|].
  split; [exact crossing_conforming|].
  exact (valid_plan_accepted open3 crossing_starts crossing_goals
           crossing_plan crossing_starts_walkable crossing_conforming).
Defined.

(** ** Further properties of [calculate_metrics] *)

(** A loop that raises does so in one of its iterations. *)
Lemma for_in_Raise {A B} (xs : list A) (acc : B) body (e : exn) :
  for_in xs acc body = Raise e →
  ∃ x a, x ∈ xs ∧ body a x = Raise e.
Proof.
  revert acc. induction xs as [|x xs IH]; intros acc Hrun; [done|].
  simpl in Hrun. destruct (body acc x) as [acc'|e'] eqn:Hbody.
  - destruct (IH acc' Hrun) as (y & a & Hy & Ha).
    exists y, a. split; [by right|done].
  - simpl in Hrun. exists x, acc. split; [by left|congruence].
Qed.

Lemma subscript_Raise {A} (l : list A) (i : nat) (e : exn) :
  subscript l i = Raise e → e = IndexError.
Proof. unfold subscript. destruct (l !! i); congruence. Qed.

Lemma bind_Raise {A B} (m : result A) (f : A → result B) (e : exn) :
  m ≫= f = Raise e → m = Raise e ∨ ∃ a, m = Ok a ∧ f a = Raise e.
Proof.
  destruct m as [a|e']; intros H.
  - right. exists a. split; [reflexivity|exact H].
  - left. change (@Raise B e' = Raise e) in H. congruence.
Qed.

Lemma agent_path_length_Raise (plan : Plan) (i : nat) (g : Position)
    (e : exn) :
  agent_path_length plan i g = Raise e → e = IndexError.
Proof.
  unfold agent_path_length.
  intros (t & a & _ & Hbody)%for_in_Raise. cbn beta in Hbody.
  apply bind_Raise in Hbody as [Hc|(c & _ & Hbody)];
    [by eapply subscript_Raise|].
  apply bind_Raise in Hbody as [Hp|(p & _ & Hbody)];
    [by eapply subscript_Raise|done].
Qed.

Lemma sum_of_costs_Raise (plan : Plan) (goals : list Position) (n : nat)
    (e : exn) :
  sum_of_costs plan goals n = Raise e → e = IndexError.
Proof.
  unfold sum_of_costs.
  intros (i & a & _ & Hbody)%for_in_Raise. cbn beta in Hbody.
  apply bind_Raise in Hbody as [Hg|(g & _ & Hbody)];
    [by eapply subscript_Raise|].
  apply bind_Raise in Hbody as [HL|(L & _ & Hbody)];
    [by eapply agent_path_length_Raise|done].
Qed.

Lemma all_reached_Raise (final_positions goals : list Position)
    (agents : list nat) (e : exn) :
  all_reached final_positions goals agents = Raise e → e = IndexError.
Proof.
  induction agents as [|i agents IH]; simpl; [done|]. intros Hrun.
  apply bind_Raise in Hrun as [Hp|(p & _ & Hrun)];
    [by eapply subscript_Raise|].
  apply bind_Raise in Hrun as [Hg|(g & _ & Hrun)];
    [by eapply subscript_Raise|].
  case_bool_decide; [by apply IH|done].
Qed.

(** The exceptions of a call on a non-empty plan. *)
Lemma calculate_metrics_Raise (plan : Plan) (starts goals : list Position)
    (computation_time : value) (e : exn) :
  plan ≠ [] →
  calculate_metrics (Some plan) starts goals computation_time = Raise e →
  e = IndexError ∨ (e = ZeroDivisionError ∧ length starts = 0%nat).
Proof.
  intros Hne Hrun. rewrite calculate_metrics_nonempty in Hrun by done.
  apply bind_Raise in Hrun as [Hs|(s & _ & Hrun)];
    [left; by eapply sum_of_costs_Raise|].
  apply bind_Raise in Hrun as [Hf|(final & _ & Hrun)];
    [left; by eapply subscript_Raise|].
  apply bind_Raise in Hrun as [Hb|(b & _ & Hrun)];
    [left; by eapply all_reached_Raise|].
  apply bind_Raise in Hrun as [Hdiv|(a & _ & Hrun)]; [|done].
  right. unfold true_div in Hdiv.
  destruct (decide (Z.of_nat (length starts) = 0)); [|done].
  split; [congruence|lia].
Qed.

(** X1. With a non-empty plan and at least one agent, inputs that are not
    well formed (a goal missing for an agent, or a configuration without an
    entry for an agent) make [calculate_metrics] raise [IndexError]. *)
Theorem calculate_metrics_IndexError (plan : Plan)
    (starts goals : list Position) (computation_time : value) :
  plan ≠ [] → (1 ≤ length starts)%nat → ¬ well_formed plan starts goals →
  calculate_metrics (Some plan) starts goals computation_time
  = Raise IndexError.
Proof.
  intros Hne Hn Hill.
  destruct (calculate_metrics (Some plan) starts goals computation_time)
    as [d|e] eqn:Hrun.
  - destruct Hill. by eapply calculate_metrics_domain.
  - apply calculate_metrics_Raise in Hrun as [->|[_ Hzero]]; [done|lia|done].
Qed.

Lemma short_configuration_ill_formed :
  ¬ well_formed [[(0, 0)]] oscillating_starts oscillating_goals.
Proof.
  intros [_ Hcs]. apply Forall_cons in Hcs as [Hc _]. simpl in Hc. lia.
Qed.

Lemma calculate_metrics_IndexError_witness :
  [[(0, 0)]] ≠ ([] : Plan) ∧
  (1 ≤ length oscillating_starts)%nat ∧
  ¬ well_formed [[(0, 0)]] oscillating_starts oscillating_goals ∧
  calculate_metrics (Some [[(0, 0)]]) oscillating_starts oscillating_goals
    (VFloat (S754_zero false)) = Raise IndexError.
Proof.
  assert (Hne : [[(0, 0)]] ≠ ([] : Plan)) by discriminate.
  assert (Hn : (1 ≤ length oscillating_starts)%nat) by (simpl; lia).
  split_and!; [exact Hne|exact Hn|exact short_configuration_ill_formed|].
  exact (calculate_metrics_IndexError [[(0, 0)]] oscillating_starts
           oscillating_goals (VFloat (S754_zero false)) Hne Hn
           short_configuration_ill_formed).
Defined.

Lemma last_departure_unique (plan : Plan) (i : nat) (g : Position)
    (L L' : Z) :
  last_departure plan i g L → last_departure plan i g L' → L = L'.
Proof.
  intros [[-> Hall]|(t & p & -> & Hp & Hpg & Hafter)]
         [[-> Hall']|(t' & p' & -> & Hp' & Hpg' & Hafter')].
  - done.
  - destruct Hpg'. by eapply Hall.
  - destruct Hpg. by eapply Hall'.
  - destruct (decide (t < t')%nat) as [Hlt|];
      [destruct Hpg'; by eapply Hafter|].
    destruct (decide (t' < t)%nat) as [Hlt|];
      [destruct Hpg; by eapply Hafter'|].
    lia.
Qed.

Lemma last_departure_zero (plan : Plan) (i : nat) (g : Position) :
  last_departure plan i g 0 ↔
  ∀ t p, position_at plan t i = Some p → p = g.
Proof.
  split.
  - intros [[_ Hall]|(t & p & Ht & _)]; [done|lia].
  - intros Hall. by left.
Qed.

Lemma Zsum_nonneg (l : list Z) : Forall (fun x => 0 ≤ x) l → 0 ≤ Zsum l.
Proof. unfold Zsum. induction 1; simpl; lia. Qed.

Lemma Zsum_elem_le (l : list Z) (i : nat) (x : Z) :
  Forall (fun y => 0 ≤ y) l → l !! i = Some x → x ≤ Zsum l.
Proof.
  intros Hpos. revert i.
  induction Hpos as [|y l Hy Hl IH]; intros [|i] Hx; simplify_eq/=.
  - pose proof (Zsum_nonneg l Hl). unfold Zsum in *. simpl. lia.
  - specialize (IH i Hx). unfold Zsum in *. simpl. lia.
Qed.

Lemma per_agent_lengths_range (plan : Plan) (starts goals : list Position)
    (lens : list Z) :
  well_formed plan starts goals →
  per_agent_lengths plan goals (length starts) lens →
  Forall (fun L => 0 ≤ L ≤ Z.of_nat (length plan)) lens.
Proof.
  intros Hwf Hlens. apply Forall_lookup. intros i L HL.
  destruct (per_agent_lengths_last_departure _ _ _ _ Hwf Hlens i L HL)
    as (_ & g & _ & Hdep).
  by eapply last_departure_range.
Qed.

(** X2. On a non-empty plan, a returned record has [sum_of_costs = 0]
    exactly when every agent is on its goal at every timestep of the plan;
    the record then has [success = True]. *)
Theorem calculate_metrics_sum_of_costs_zero (plan : Plan)
    (starts goals : list Position) (computation_time : value)
    (d : gmap string value) :
  plan ≠ [] →
  calculate_metrics (Some plan) starts goals computation_time = Ok d →
  (d !! "sum_of_costs" = Some (VInt 0) ↔
   ∀ i t p, (i < length starts)%nat → position_at plan t i = Some p →
            goals !! i = Some p) ∧
  (d !! "sum_of_costs" = Some (VInt 0) → d !! "success" = Some (VBool true)).
Proof.
  intros Hne Hrun.
  destruct (calculate_metrics_returns _ _ _ _ _ Hne Hrun)
    as (Hwf & Hn & lens & final & b & Hlens & Hlast & Hiff & ->).
  pose proof (per_agent_lengths_range _ _ _ _ Hwf Hlens) as Hrange.
  assert (Hzero : Zsum lens = 0 →
            ∀ i t p, (i < length starts)%nat →
                     position_at plan t i = Some p → goals !! i = Some p).
  { intros Hsum i t p Hi Hp.
    destruct Hlens as [Hlen Hall].
    destruct (Hall i Hi) as (g & L & Hg & HL & HLrun).
    assert (L = 0) as ->.
    { assert (Hpos : Forall (fun y => 0 ≤ y) lens)
        by (eapply Forall_impl; [exact Hrange|]; simpl; lia).
      pose proof (Zsum_elem_le lens i L Hpos HL) as Hle.
      pose proof (proj1 (Forall_lookup _ _) Hpos i L HL) as HL0.
      simpl in HL0. lia. }
    destruct (per_agent_lengths_last_departure _ _ _ _ Hwf
                (conj Hlen Hall) i 0 HL) as (_ & g' & Hg' & Hdep).
    rewrite Hg'. f_equal. symmetry.
    by apply (proj1 (last_departure_zero plan i g') Hdep t p). }
  split; [split|].
  - intros Hsum. apply Hzero.
    change (Some (VInt (Zsum lens)) = Some (VInt 0)) in Hsum. congruence.
  - intros Hstay.
    change (Some (VInt (Zsum lens)) = Some (VInt 0)). do 2 f_equal.
    rewrite (Zsum_constant lens 0); [lia|].
    apply Forall_lookup. intros i L HL.
    destruct (per_agent_lengths_last_departure _ _ _ _ Hwf Hlens i L HL)
      as (Hi & g & Hg & Hdep).
    eapply last_departure_unique; [exact Hdep|].
    apply last_departure_zero. intros t p Hp.
    specialize (Hstay i t p Hi Hp). congruence.
  - intros Hsum.
    change (Some (VInt (Zsum lens)) = Some (VInt 0)) in Hsum.
    assert (Zsum lens = 0) as Hsum0 by congruence.
    change (Some (VBool b) = Some (VBool true)). do 2 f_equal.
    apply Hiff. intros i Hi.
    assert (∃ p, final !! i = Some p) as [p Hp].
    { apply lookup_lt_is_Some_2. destruct Hwf as [_ Hcs].
      apply last_Some_elem_of in Hlast.
      pose proof (proj1 (Forall_forall _ _) Hcs final Hlast). simpl in *. lia. }
    exists p. split; [done|].
    apply (Hzero Hsum0 i (length plan - 1)%nat p Hi).
    apply position_at_Some. exists final. split; [|done].
    rewrite last_lookup in Hlast.
    by replace (length plan - 1)%nat with (pred (length plan)) by lia.
Qed.

Lemma calculate_metrics_sum_of_costs_zero_witness :
  [oscillating_goals; oscillating_goals] ≠ ([] : Plan) ∧
  calculate_metrics (Some [oscillating_goals; oscillating_goals])
    oscillating_goals oscillating_goals (VFloat (S754_zero false))
  = Ok (still_record) ∧
  (still_record !! "sum_of_costs"
   = Some (VInt 0) ↔
   ∀ i t p, (i < length oscillating_goals)%nat →
            position_at [oscillating_goals; oscillating_goals] t i = Some p →
            oscillating_goals !! i = Some p) ∧
  (still_record !! "sum_of_costs"
   = Some (VInt 0) →
   still_record !! "success"
   = Some (VBool true)).
Proof.
  assert (Hne : [oscillating_goals; oscillating_goals] ≠ ([] : Plan))
    by discriminate.
  assert (Hrun : calculate_metrics
                   (Some [oscillating_goals; oscillating_goals])
                   oscillating_goals oscillating_goals (VFloat (S754_zero false))
                 = Ok (still_record))
    by (vm_compute; reflexivity).
  split; [exact Hne|]. split; [exact Hrun|].
  exact (calculate_metrics_sum_of_costs_zero _ _ _ _ _ Hne Hrun).
Defined.

(** X3. On a non-empty plan, the [sum_of_costs] of a returned record lies
    between zero and the number of agents times [total_timesteps]; when the
    record has [success = False] it is at least [total_timesteps], one more
    than the makespan. *)
Theorem calculate_metrics_cost_bounds (plan : Plan)
    (starts goals : list Position) (computation_time : value)
    (d : gmap string value) :
  plan ≠ [] →
  calculate_metrics (Some plan) starts goals computation_time = Ok d →
  ∃ s b,
    d !! "sum_of_costs" = Some (VInt s) ∧
    d !! "success" = Some (VBool b) ∧
    d !! "total_timesteps" = Some (VInt (Z.of_nat (length plan))) ∧
    0 ≤ s ≤ Z.of_nat (length starts) * Z.of_nat (length plan) ∧
    (b = false → Z.of_nat (length plan) ≤ s).
Proof.
  intros Hne Hrun.
  destruct (calculate_metrics_returns _ _ _ _ _ Hne Hrun)
    as (Hwf & Hn & lens & final & b & Hlens & Hlast & Hiff & ->).
  pose proof (per_agent_lengths_range _ _ _ _ Hwf Hlens) as Hrange.
  assert (Hpos : Forall (fun y => 0 ≤ y) lens)
    by (eapply Forall_impl; [exact Hrange|]; simpl; lia).
  assert (Hle : Forall (fun y => y ≤ Z.of_nat (length plan)) lens)
    by (eapply Forall_impl; [exact Hrange|]; simpl; lia).
  exists (Zsum lens), b.
  split_and!; [reflexivity|reflexivity|reflexivity| | |].
  - by apply Zsum_nonneg.
  - apply Zsum_bounded in Hle. destruct Hlens as [Hlen _].
    by rewrite Hlen in Hle.
  - intros ->.
    destruct (decide (Z.of_nat (length plan) ≤ Zsum lens)) as [|Hlt]; [done|].
    assert (true = false); [|done]. symmetry. apply Hiff. intros i Hi.
    assert (∃ p, final !! i = Some p) as [p Hp].
    { apply lookup_lt_is_Some_2. destruct Hwf as [_ Hcs].
      apply last_Some_elem_of in Hlast.
      pose proof (proj1 (Forall_forall _ _) Hcs final Hlast). simpl in *. lia. }
    destruct (proj2 Hlens i Hi) as (g & L & Hg & HL & _).
    destruct (per_agent_lengths_last_departure _ _ _ _ Hwf Hlens i L HL)
      as (_ & g' & Hg' & Hdep).
    assert (g' = g) as -> by congruence.
    exists p. split; [done|].
    destruct (decide (p = g)) as [->|Hpg]; [done|].
    assert (Hend : position_at plan (length plan - 1) i = Some p).
    { apply position_at_Some. exists final. split; [|done].
      rewrite last_lookup in Hlast.
      by replace (length plan - 1)%nat with (pred (length plan)) by lia. }
    pose proof (last_departure_upper _ _ _ _ Hdep _ _ Hend Hpg) as Hup.
    pose proof (Zsum_elem_le lens i L Hpos HL) as Hsum.
    assert (0 < length plan)%nat by (destruct plan; [done|simpl; lia]).
    lia.
Qed.

Lemma calculate_metrics_cost_bounds_witness :
  oscillating_plan ≠ [] ∧
  (∃ d, calculate_metrics (Some oscillating_plan) oscillating_starts
          far_goals (VFloat (S754_zero false)) = Ok d) ∧
  ∀ d, calculate_metrics (Some oscillating_plan) oscillating_starts
         far_goals (VFloat (S754_zero false)) = Ok d →
    ∃ s b,
      d !! "sum_of_costs" = Some (VInt s) ∧
      d !! "success" = Some (VBool b) ∧
      d !! "total_timesteps"
        = Some (VInt (Z.of_nat (length oscillating_plan))) ∧
      0 ≤ s ≤ Z.of_nat (length oscillating_starts)
              * Z.of_nat (length oscillating_plan) ∧
      (b = false → Z.of_nat (length oscillating_plan) ≤ s).
Proof.
  split; [exact oscillating_nonempty|]. split.
  - eexists. vm_compute. reflexivity.
  - intros d.
    exact (calculate_metrics_cost_bounds oscillating_plan oscillating_starts
             far_goals (VFloat (S754_zero false)) d oscillating_nonempty).
Defined.

Lemma position_at_snoc (plan : Plan) (c : Configuration) (t i : nat)
    (p : Position) :
  position_at (plan ++ [c]) t i = Some p ↔
  position_at plan t i = Some p ∨ (t = length plan ∧ c !! i = Some p).
Proof.
  rewrite !position_at_Some. split.
  - intros (c' & Hc' & Hp).
    apply lookup_app_Some in Hc' as [Hc'|[Hge Hc']]; [left; by eauto|].
    right. destruct (t - length plan)%nat as [|k] eqn:Hk; simplify_eq/=.
    split; [lia|done].
  - intros [(c' & Hc' & Hp)|[-> Hp]].
    + exists c'. split; [|done]. by apply lookup_app_l_Some.
    + exists c. split; [|done].
      rewrite lookup_app_r by lia. by rewrite Nat.sub_diag.
Qed.

(** Waiting on the goal for one more timestep leaves the path length as it
    is. *)
Lemma last_departure_snoc (plan : Plan) (c : Configuration) (i : nat)
    (g : Position) (L : Z) :
  c !! i = Some g →
  last_departure plan i g L → last_departure (plan ++ [c]) i g L.
Proof.
  intros Hc [[-> Hall]|(t & p & -> & Hp & Hpg & Hafter)].
  - left. split; [done|].
    intros t p [Hp|[_ Hp]]%position_at_snoc; [by eapply Hall|congruence].
  - right. exists t, p. split_and!; [done| |done|].
    + apply position_at_snoc. by left.
    + intros t' p' Ht' [Hp'|[_ Hp']]%position_at_snoc;
        [by eapply Hafter|congruence].
Qed.

(** X4. Appending to the plan of a run that returned a record one more
    configuration in which every agent is on its goal gives a run that
    returns a record with the same [sum_of_costs], [success = True] and a
    makespan larger by one: waiting on the goal costs nothing. *)
Theorem calculate_metrics_goal_padding (plan : Plan) (c : Configuration)
    (starts goals : list Position) (computation_time : value)
    (d : gmap string value) :
  plan ≠ [] →
  calculate_metrics (Some plan) starts goals computation_time = Ok d →
  all_on_goal c goals (length starts) →
  ∃ d',
    calculate_metrics (Some (plan ++ [c])) starts goals computation_time
    = Ok d' ∧
    d' !! "sum_of_costs" = d !! "sum_of_costs" ∧
    d' !! "success" = Some (VBool true) ∧
    d !! "makespan" = Some (VInt (Z.of_nat (length plan) - 1)) ∧
    d' !! "makespan" = Some (VInt (Z.of_nat (length plan))).
Proof.
  intros Hne Hrun Hgoal.
  destruct (calculate_metrics_returns _ _ _ _ _ Hne Hrun)
    as (Hwf & Hn & lens & final & b & Hlens & Hlast & Hiff & ->).
  assert (Hc : (length starts ≤ length c)%nat).
  { destruct (Hgoal (length starts - 1)%nat ltac:(lia)) as (p & Hp & _).
    apply lookup_lt_Some in Hp. lia. }
  assert (Hwf' : well_formed (plan ++ [c]) starts goals).
  { destruct Hwf as [Hg Hcs]. split; [done|].
    apply Forall_app. split; [done|]. by repeat constructor. }
  assert (Hne' : plan ++ [c] ≠ []) by (by destruct plan).
  destruct (calculate_metrics_Ok (plan ++ [c]) starts goals computation_time
              Hne' Hwf' Hn)
    as (lens' & final' & b' & Hlens' & Hlast' & Hiff' & Hrun').
  rewrite last_snoc in Hlast'. assert (final' = c) as -> by congruence.
  assert (b' = true) as -> by by apply Hiff'.
  assert (lens' = lens) as ->.
  { apply list_eq. intros i.
    destruct (decide (i < length starts)%nat) as [Hi|Hi].
    - destruct (proj2 Hlens i Hi) as (g & L & Hg & HL & _).
      destruct (proj2 Hlens' i Hi) as (g' & L' & Hg' & HL' & _).
      destruct (per_agent_lengths_last_departure _ _ _ _ Hwf Hlens i L HL)
        as (_ & g1 & Hg1 & Hdep).
      destruct (per_agent_lengths_last_departure _ _ _ _ Hwf' Hlens' i L' HL')
        as (_ & g2 & Hg2 & Hdep').
      assert (g1 = g) as -> by congruence.
      assert (g2 = g) as -> by congruence.
      destruct (Hgoal i Hi) as (p & Hp & Hgp).
      assert (p = g) as -> by congruence.
      rewrite HL, HL'. f_equal.
      eapply last_departure_unique; [exact Hdep'|].
      by apply last_departure_snoc.
    - rewrite !lookup_ge_None_2; [done| |].
      + destruct Hlens as [-> _]. lia.
      + destruct Hlens' as [-> _]. lia. }
  eexists. split; [exact Hrun'|].
  split_and!; [reflexivity|reflexivity|reflexivity|].
  rewrite length_app. simpl.
  change (Some (VInt (Z.of_nat (length plan + 1) - 1))
          = Some (VInt (Z.of_nat (length plan)))).
  do 2 f_equal. lia.
Qed.

Lemma oscillating_goals_on_goal :
  all_on_goal oscillating_goals oscillating_goals (length oscillating_starts).
Proof.
  intros [|[|i]] Hi; simpl in Hi; [by eexists|by eexists|lia].
Qed.

Lemma calculate_metrics_goal_padding_witness :
  oscillating_plan ≠ [] ∧
  (∃ d, calculate_metrics (Some oscillating_plan) oscillating_starts
          oscillating_goals (VFloat (S754_zero false)) = Ok d) ∧
  all_on_goal oscillating_goals oscillating_goals
    (length oscillating_starts) ∧
  ∀ d, calculate_metrics (Some oscillating_plan) oscillating_starts
         oscillating_goals (VFloat (S754_zero false)) = Ok d →
    ∃ d',
      calculate_metrics (Some (oscillating_plan ++ [oscillating_goals]))
        oscillating_starts oscillating_goals (VFloat (S754_zero false)) = Ok d' ∧
      d' !! "sum_of_costs" = d !! "sum_of_costs" ∧
      d' !! "success" = Some (VBool true) ∧
      d !! "makespan" = Some (VInt (Z.of_nat (length oscillating_plan) - 1)) ∧
      d' !! "makespan" = Some (VInt (Z.of_nat (length oscillating_plan))).
Proof.
  split; [exact oscillating_nonempty|]. split; [|split].
  - eexists. vm_compute. reflexivity.
  - exact oscillating_goals_on_goal.
  - intros d Hrun.
    exact (calculate_metrics_goal_padding oscillating_plan oscillating_goals
             oscillating_starts oscillating_goals (VFloat (S754_zero false)) d
             oscillating_nonempty Hrun oscillating_goals_on_goal).
Defined.

(** ** The output name *)

Lemma append_inv_head (s a b : string) : s +:+ a = s +:+ b → a = b.
Proof.
  induction s as [|c s IH]; simpl; [done|]. intros [= H]. by apply IH.
Qed.

Lemma no_underscore_uint (d : Decimal.uint) :
  no_underscore (NilEmpty.string_of_uint d).
Proof. induction d; simpl; (split; [discriminate|done]) || done. Qed.

Lemma no_underscore_str_int (n : Z) : no_underscore (str_int n).
Proof.
  unfold str_int.
  destruct (Z.to_int n) as [d|d]; simpl.
  - destruct d; try apply no_underscore_uint. simpl. by split.
  - split; [discriminate|].
    destruct d; try apply no_underscore_uint. simpl. by split.
Qed.

(** Two strings without underscore, each followed by an underscore and a
    rest, are equal as wholes only when they and the rests are equal. *)
Lemma underscore_split (a a' b b' : string) :
  no_underscore a → no_underscore a' →
  a +:+ String (Ascii.ascii_of_nat 95) b
  = a' +:+ String (Ascii.ascii_of_nat 95) b' →
  a = a' ∧ b = b'.
Proof.
  revert a'. induction a as [|c a IH]; intros [|c' a'] Ha Ha' Heq;
    simpl in *.
  - by injection Heq.
  - injection Heq as Hc _. destruct Ha' as [Hc' _]. by destruct Hc'.
  - injection Heq as Hc _. destruct Ha as [Hc' _]. by destruct Hc'.
  - injection Heq as -> Heq. destruct Ha as [_ Ha], Ha' as [_ Ha'].
    destruct (IH a' Ha Ha' Heq) as [-> ->]. done.
Qed.

Lemma to_int_printable (n : Z) :
  Z.to_int n ≠ Decimal.Pos Decimal.Nil ∧ Z.to_int n ≠ Decimal.Neg Decimal.Nil.
Proof.
  destruct n as [|p|p]; simpl; split; try discriminate;
    intros [= H]; by apply (Unsigned.to_uint_nonnil p).
Qed.

(** [int(str(n)) = n]: the decimal form determines the integer. *)
Lemma str_int_inj (n m : Z) : str_int n = str_int m → n = m.
Proof.
  unfold str_int. intros Heq.
  destruct (to_int_printable n) as [Hn1 Hn2].
  destruct (to_int_printable m) as [Hm1 Hm2].
  pose proof (NilZero.isi (Z.to_int n) Hn1 Hn2) as Hn.
  pose proof (NilZero.isi (Z.to_int m) Hm1 Hm2) as Hm.
  rewrite Heq, Hm in Hn.
  assert (Z.to_int m = Z.to_int n) as Hints by congruence.
  rewrite <- (DecimalZ.of_to n), <- (DecimalZ.of_to m). by rewrite Hints.
Qed.

(** X7. For the same map and scenario files, [generate_output_name] gives
    two runs the same output name exactly when they have the same number of
    agents and the same random seed, whatever [Path.stem] returns: runs
    that differ in either never share their output files. *)
Theorem generate_output_name_inj (stem : string → string)
    (map_file_path scenario_file_path : string)
    (number_of_agents random_seed number_of_agents' random_seed' : Z) :
  generate_output_name stem map_file_path scenario_file_path
    number_of_agents random_seed
  = generate_output_name stem map_file_path scenario_file_path
      number_of_agents' random_seed' ↔
  number_of_agents = number_of_agents' ∧ random_seed = random_seed'.
Proof.
  split; [|by intros [-> ->]].
  unfold generate_output_name. cbv zeta. intros Heq.
  do 3 apply append_inv_head in Heq.
  apply (append_inv_head "_agents") in Heq.
  destruct (underscore_split (str_int number_of_agents)
              (str_int number_of_agents')
              ("seed" +:+ str_int random_seed)
              ("seed" +:+ str_int random_seed'))
    as [Hagents Hseed]; [apply no_underscore_str_int..|exact Heq|].
  apply (append_inv_head "seed") in Hseed.
  split; by apply str_int_inj.
Qed.

Example output_name_of_default_run :
  generate_output_name (fun p => p) "random-32-32-10" "random-32-32-10-random-1"
    200 0
  = "random-32-32-10_random-32-32-10-random-1_agents200_seed0".
Proof. vm_compute. reflexivity. Qed.

Example output_name_negative_seed :
  generate_output_name (fun p => p) "m" "s" 7 (-3) = "m_s_agents7_seed-3".
Proof. vm_compute. reflexivity. Qed.

(** ** Writing the report *)





(** The steps of which the metrics section is made neither raise
    [KeyError] nor take anything back from the file. *)
Lemma no_key_error_write {E} (s : string) : no_key_error (@write E s).
Proof.
  intros written. split; [done|]. by apply prefix_app_r.
Qed.

Lemma no_key_error_builtin {E A} (r : E + A) : no_key_error (builtin r).
Proof. intros written. by destruct r. Qed.

Lemma no_key_error_getitem {E V} (d : gmap string V) (key : string) (v : V) :
  d !! key = Some v → no_key_error (@getitem E V d key).
Proof.
  intros Hv written. unfold getitem. rewrite Hv. by split.
Qed.

Lemma no_key_error_bind {E A B} (m : writer E A) (k : A → writer E B) :
  no_key_error m → (∀ a, no_key_error (k a)) → no_key_error (m ≫= k).
Proof.
  intros Hm Hk written. unfold mbind, writer_bind.
  destruct (Hm written) as [Hkey Hpre].
  destruct (m written) as [[e|a] written'] eqn:Hrun; simpl in *.
  - split; [|done]. intros key [= ->]. by apply (Hkey key).
  - destruct (Hk a written') as [Hkey' Hpre']. split; [done|].
    by etrans.
Qed.

Ltac no_key_error :=
  repeat first
    [ apply no_key_error_write
    | apply no_key_error_builtin
    | eapply no_key_error_getitem; reflexivity
    | apply no_key_error_bind; [|intros ?] ].



Lemma main_configuration_complete (map_file scenario_file : string)
    (number_of_agents random_seed : Z) (timestamp : string) :
  complete (main_configuration map_file scenario_file number_of_agents
              random_seed timestamp).
Proof. unfold complete. split_and!; eexists; reflexivity. Qed.

Section ReportProperties.
Variable E : Type.
Variable format_value : value → E + string.
Variable format_fixed : nat → value → E + string.
Variable divide : value → value → E + value.






End ReportProperties.







(** The stand-in for [.4f] raises on an int beyond the range of a double,
    as Python does; the report of such a computation time stops after the
    status line. *)
Example report_of_a_huge_time :
  (save_metrics_to_file string sample_format_value sample_format_fixed
     sample_divide (failed_metrics (VInt (10 ^ 400))) sample_configuration
     "results/metrics.txt" ∅).1
  = inl (Builtin "OverflowError").
Proof. vm_compute. reflexivity. Qed.

(** ** [calculate_metrics] on the store *)

Lemma reads_as_eq {A} (m : stateful A) (r : result A) (h : store) :
  reads_as eq m r h ↔ m h = Some (r, h).
Proof.
  split.
  - intros (r' & Hrun & Hr). rewrite Hrun.
    destruct r', r; try done; by subst.
  - intros Hrun. exists r. split; [done|]. by destruct r.
Qed.

Lemma reads_as_ret {A B} (R : A → B → Prop) (a : A) (b : B) (h : store) :
  R a b → reads_as R (mret a) (Ok b) h.
Proof. intros Hab. by exists (Ok a). Qed.

Lemma reads_as_pure {A} (r : result A) (h : store) :
  reads_as eq (pure r) r h.
Proof. by apply reads_as_eq. Qed.

Lemma reads_as_bind {A A' B B'} (R : A → A' → Prop) (S : B → B' → Prop)
    (m : stateful A) (f : A → stateful B) (r : result A')
    (k : A' → result B') (h : store) :
  reads_as R m r h →
  (∀ a a', R a a' → reads_as S (f a) (k a') h) →
  reads_as S (m ≫= f) (r ≫= k) h.
Proof.
  intros (r' & Hrun & Hr) Hcont. unfold reads_as, mbind at 1, stateful_bind.
  rewrite Hrun. destruct r' as [a|e], r as [a'|e']; try done.
  - apply (Hcont a a' Hr).
  - exists (Raise e). split; [done|]. exact Hr.
Qed.

(** A read whose value the pure function has as an argument. *)
Lemma reads_as_bind_value {A B B'} (S : B → B' → Prop) (m : stateful A)
    (f : A → stateful B) (a : A) (r : result B') (h : store) :
  reads_as eq m (Ok a) h → reads_as S (f a) r h →
  reads_as S (m ≫= f) r h.
Proof.
  intros Hm%reads_as_eq Hcont. unfold reads_as, mbind, stateful_bind.
  by rewrite Hm.
Qed.

Lemma reads_as_for_in {A B} (xs : list A) (acc : B)
    (body_store : B → A → stateful B) (body : B → A → result B)
    (h : store) :
  (∀ a x, reads_as eq (body_store a x) (body a x) h) →
  reads_as eq (for_in_store xs acc body_store) (for_in xs acc body) h.
Proof.
  intros Hbody. revert acc. induction xs as [|x xs IH]; intros acc; simpl.
  - by apply reads_as_ret.
  - eapply reads_as_bind; [apply Hbody|]. intros a ? <-. apply IH.
Qed.

Section Snapshot.
Variables (h : store) (plan starts goals : positive).
Variables (p : Plan) (s g : list Position).
Hypothesis plan_snapshot : plan_of h (Some plan) = Some (Some p).
Hypothesis starts_snapshot : positions_of h starts = Some s.
Hypothesis goals_snapshot : positions_of h goals = Some g.

Lemma reads_as_len_positions (l : positive) (items : list Position) :
  positions_of h l = Some items → reads_as eq (len l) (Ok (length items)) h.
Proof.
  unfold positions_of. intros Hl. apply reads_as_eq. unfold len.
  destruct (h !! l) as [[items'|refs]|]; by simplify_eq.
Qed.

Lemma reads_as_position_item (l : positive) (items : list Position)
    (i : nat) :
  positions_of h l = Some items →
  reads_as eq (position_item l i) (subscript items i) h.
Proof.
  unfold positions_of. intros Hl. apply reads_as_eq. unfold position_item.
  destruct (h !! l) as [[items'|refs]|]; by simplify_eq.
Qed.

Lemma plan_references :
  ∃ refs, h !! plan = Some (ReferenceList refs) ∧
          Forall2 (fun c cfg => positions_of h c = Some cfg) refs p.
Proof.
  pose proof plan_snapshot as Hp. simpl in Hp.
  destruct (h !! plan) as [[items|refs]|]; try done.
  exists refs. split; [done|]. apply mapM_Some.
  destruct (mapM (positions_of h) refs); by simplify_eq/=.
Qed.

Lemma reads_as_len_plan : reads_as eq (len plan) (Ok (length p)) h.
Proof.
  destruct plan_references as (refs & Hrefs & Hall).
  apply reads_as_eq. unfold len. rewrite Hrefs.
  by rewrite (Forall2_length _ _ _ Hall).
Qed.

Lemma reads_as_reference_item (i : nat) :
  reads_as (fun c cfg => positions_of h c = Some cfg)
    (reference_item plan i) (subscript p i) h.
Proof.
  destruct plan_references as (refs & Hrefs & Hall).
  unfold reads_as, reference_item. rewrite Hrefs.
  exists (subscript refs i). split; [done|]. unfold subscript.
  destruct (refs !! i) as [c|] eqn:Hc.
  - destruct (Forall2_lookup_l _ _ _ _ _ Hall Hc) as (cfg & -> & Hcfg).
    done.
  - apply lookup_ge_None in Hc. rewrite (Forall2_length _ _ _ Hall) in Hc.
    by rewrite (lookup_ge_None_2 p i Hc).
Qed.

Lemma reads_as_all_reached (final_positions : positive)
    (final : Configuration) (agents : list nat) :
  positions_of h final_positions = Some final →
  reads_as eq (all_reached_store final_positions goals agents)
    (all_reached final g agents) h.
Proof.
  intros Hfinal. induction agents as [|i agents IH]; simpl.
  - by apply reads_as_ret.
  - eapply reads_as_bind; [by apply reads_as_position_item|].
    intros position ? <-.
    eapply reads_as_bind; [by apply reads_as_position_item|].
    intros goal ? <-.
    case_bool_decide; [exact IH|by apply reads_as_ret].
Qed.

Lemma reads_as_metrics (computation_time : value) :
  p ≠ [] →
  reads_as eq (metrics_store plan starts goals computation_time)
    (calculate_metrics (Some p) s g computation_time) h.
Proof.
  intros Hne. rewrite calculate_metrics_nonempty by done.
  unfold metrics_store.
  eapply reads_as_bind_value; [by apply reads_as_len_positions|].
  eapply reads_as_bind_value; [apply reads_as_len_plan|]. cbn zeta.
  eapply reads_as_bind.
  { unfold sum_of_costs. apply reads_as_for_in. intros soc agent_id.
    eapply reads_as_bind; [by apply reads_as_position_item|].
    intros goal_position ? <-.
    eapply reads_as_bind_value; [apply reads_as_len_plan|].
    eapply reads_as_bind.
    { unfold agent_path_length. apply reads_as_for_in. intros apl timestep.
      eapply reads_as_bind; [apply reads_as_reference_item|].
      intros configuration cfg Hcfg.
      eapply reads_as_bind; [by apply reads_as_position_item|].
      intros position ? <-. by apply reads_as_ret. }
    intros agent_path_length ? <-. by apply reads_as_ret. }
  intros sum_of_costs ? <-.
  eapply reads_as_bind_value; [apply reads_as_len_plan|].
  eapply reads_as_bind; [apply reads_as_reference_item|].
  intros final_positions final Hfinal.
  eapply reads_as_bind; [by apply reads_as_all_reached|].
  intros all_reached_goals ? <-.
  eapply reads_as_bind; [apply reads_as_pure|].
  intros average_path_length ? <-.
  eapply reads_as_bind_value; [apply reads_as_len_plan|].
  by apply reads_as_ret.
Qed.
End Snapshot.

Lemma reads_as_not_plan (h : store) (plan : positive) (p : Plan) :
  plan_of h (Some plan) = Some (Some p) →
  reads_as eq (not_plan (Some plan)) (Ok (bool_decide (length p = 0%nat))) h.
Proof.
  intros Hp. unfold not_plan.
  eapply reads_as_bind_value; [by apply reads_as_len_plan|].
  by apply reads_as_ret.
Qed.

(** C7. Run on a store, on references to the lists, [calculate_metrics]
    leaves the store as it is: it changes none of its arguments, nor
    anything else.  What it returns or raises is what the function of the
    lists that the three references stand for and of [computation_time]
    gives, whatever else the store holds and whichever of the lists are
    one object.  That outcome depends on [computation_time] at the key of
    that name only: with another time the same exception is raised, or a
    record is returned that is equal on every other key. *)
Theorem calculate_metrics_pure (h : store) (plan : option positive)
    (starts goals : positive) (p : option Plan) (s g : list Position)
    (time1 time2 : value) :
  plan_of h plan = Some p →
  positions_of h starts = Some s →
  positions_of h goals = Some g →
  calculate_metrics_store plan starts goals time1 h
  = Some (calculate_metrics p s g time1, h) ∧
  calculate_metrics_store plan starts goals time2 h
  = Some (calculate_metrics p s g time2, h) ∧
  match calculate_metrics p s g time1, calculate_metrics p s g time2 with
  | Ok d1, Ok d2 =>
      d1 !! "computation_time" = Some time1 ∧
      d2 !! "computation_time" = Some time2 ∧
      delete "computation_time" d1 = delete "computation_time" d2
  | Raise e1, Raise e2 => e1 = e2
  | _, _ => False
  end.
Proof.
  intros Hp Hs Hg.
  assert (Hrun : ∀ time,
            calculate_metrics_store plan starts goals time h
            = Some (calculate_metrics p s g time, h)).
  { intros time. apply reads_as_eq. unfold calculate_metrics_store.
    destruct plan as [plan|].
    - assert (∃ p', p = Some p') as [p' ->].
      { simpl in Hp. destruct (h !! plan) as [[?|refs]|]; try done.
        destruct (mapM _ refs) as [p'|]; simplify_eq/=. by eauto. }
      eapply reads_as_bind_value; [by apply reads_as_not_plan|].
      case_bool_decide as Hlen.
      + destruct p'; [|done]. by apply reads_as_ret.
      + apply reads_as_metrics; try done. by intros ->.
    - simpl in Hp. simplify_eq. by apply reads_as_ret. }
  split_and!; [apply Hrun|apply Hrun|apply calculate_metrics_time].
Qed.

Lemma oscillating_store_plan :
  plan_of oscillating_store (Some 3%positive) = Some (Some oscillating_plan).
Proof. reflexivity. Qed.

Lemma calculate_metrics_pure_witness :
  plan_of oscillating_store (Some 3%positive) = Some (Some oscillating_plan) ∧
  positions_of oscillating_store 1%positive = Some oscillating_starts ∧
  positions_of oscillating_store 2%positive = Some oscillating_goals ∧
  calculate_metrics_store (Some 3%positive) 1%positive 2%positive
    (VFloat (S754_zero false)) oscillating_store
  = Some (calculate_metrics (Some oscillating_plan) oscillating_starts
            oscillating_goals (VFloat (S754_zero false)),
          oscillating_store) ∧
  calculate_metrics_store (Some 3%positive) 1%positive 2%positive
    (VInt 7) oscillating_store
  = Some (calculate_metrics (Some oscillating_plan) oscillating_starts
            oscillating_goals (VInt 7),
          oscillating_store) ∧
  match calculate_metrics (Some oscillating_plan) oscillating_starts
          oscillating_goals (VFloat (S754_zero false)),
        calculate_metrics (Some oscillating_plan) oscillating_starts
          oscillating_goals (VInt 7) with
  | Ok d1, Ok d2 =>
      d1 !! "computation_time" = Some (VFloat (S754_zero false)) ∧
      d2 !! "computation_time" = Some (VInt 7) ∧
      delete "computation_time" d1 = delete "computation_time" d2
  | Raise e1, Raise e2 => e1 = e2
  | _, _ => False
  end.
Proof.
  split; [exact oscillating_store_plan|].
  split; [reflexivity|]. split; [reflexivity|].
  exact (calculate_metrics_pure oscillating_store (Some 3%positive)
           1%positive 2%positive (Some oscillating_plan) oscillating_starts
           oscillating_goals (VFloat (S754_zero false)) (VInt 7)
           oscillating_store_plan eq_refl eq_refl).
Defined.

(** An assignment to an item does change the store: the list of starts no
    longer stands for the starts. *)
Example assignment_changes_the_store :
  ∃ h, set_position_item 1%positive 0 (9, 9) oscillating_store
       = Some (Ok tt, h) ∧
       positions_of h 1%positive = Some [(9, 9); (5, 5)] ∧
       plan_of h (Some 3%positive) ≠ Some (Some oscillating_plan).
Proof.
  eexists. split; [vm_compute; reflexivity|]. split; [reflexivity|].
  vm_compute. discriminate.
Qed.
